(** * AI Feedback Analyzer: the review pipeline of the Node backend

    A shallow embedding of the three backend files of the repository
    (the sentiment service, the Gemini service and the Express server)
    and the properties of the review-classification and
    chunked-recommendation pipeline.

    Conventions.
    - A JavaScript string is a [string]: a sequence of 8-bit characters, read
      as the code units 0..255 (Latin-1).  On such text [toLowerCase], the
      classes [\s], [\S], [\w] and [String.prototype.trim] are exactly the
      functions below.  Text with a code unit above 255 is outside the
      model.
    - A JavaScript number that holds a classifier score is a binary64 float
      ([PrimFloat.float]); array indices and sizes are integers ([Z], [nat]).
    - The two external capabilities (the transformers pipeline and the
      generative model) are environments: functions from the events observed
      so far and the request to an outcome.  Every call is recorded in the
      event log, so the order of calls is part of the result.
    - String constants of the program text are kept byte for byte; the few
      with characters outside Latin-1 are messages that the program only
      passes through, and stand as the UTF-8 bytes of the program text.
    - A function that may loop forever is a fuelled loop; the function itself
      is the loop at a fuel that is proved sufficient whenever any fuel is,
      so its [None] is non-termination and nothing else. *)

From Stdlib Require Import Bool Arith ZArith Lia List.
From Stdlib Require Import Ascii String.
From Stdlib Require Import DecimalString.
From Stdlib Require Import Floats.
From Stdlib Require Import Permutation.
Import ListNotations.

Local Open Scope string_scope.

(* A decimal literal denotes the nearest binary64 value, as in JavaScript. *)
Set Warnings "-inexact-float".

(* ================================================================= *)
(** ** JavaScript strings *)

Module JsString.

(** Character classes of the regular expressions, on code units 0..255. *)

Definition code (c : ascii) : nat := nat_of_ascii c.

(** [\s]: TAB, LF, VT, FF, CR, SPACE and NO-BREAK SPACE. *)
Definition is_space (c : ascii) : bool :=
  let n := code c in
  (((9 <=? n) && (n <=? 13)) || (n =? 32) || (n =? 160))%nat.

(** [[a-z]] *)
Definition is_lower (c : ascii) : bool :=
  let n := code c in ((97 <=? n) && (n <=? 122))%nat.

Definition is_upper (c : ascii) : bool :=
  let n := code c in ((65 <=? n) && (n <=? 90))%nat.

Definition is_digit (c : ascii) : bool :=
  let n := code c in ((48 <=? n) && (n <=? 57))%nat.

(** [\w]: [[A-Za-z0-9_]] *)
Definition is_word (c : ascii) : bool :=
  is_lower c || is_upper c || is_digit c || (code c =? 95)%nat.

(** [\S] *)
Definition is_nonspace (c : ascii) : bool := negb (is_space c).

(** [[^a-z\s]] *)
Definition is_not_letter_or_space (c : ascii) : bool :=
  negb (is_lower c || is_space c).

(** [String.prototype.toLowerCase] on code units 0..255: [A-Z] and the
    Latin-1 capitals U+00C0..U+00DE (except the multiplication sign U+00D7)
    move up by 32, everything else is unchanged.  Code units above 255 are
    outside this model: there the lower-case form can be longer than the
    character (U+0130 gives two units) or be an ASCII letter (U+212A gives
    [k]); a property is stated so that it reads of the characters as they
    lower-case, never of the length of the lower-case text. *)
Definition lower_char (c : ascii) : ascii :=
  let n := code c in
  if is_upper c then ascii_of_nat (n + 32)
  else if ((192 <=? n) && (n <=? 222) && negb (n =? 215))%nat
       then ascii_of_nat (n + 32)
  else c.

Fixpoint toLowerCase (s : string) : string :=
  match s with
  | EmptyString => EmptyString
  | String c s' => String (lower_char c) (toLowerCase s')
  end.

(** [String.prototype.includes] *)
Fixpoint includes (s sub : string) : bool :=
  prefix sub s ||
  match s with
  | EmptyString => false
  | String _ s' => includes s' sub
  end.

(** [s.slice(0, n)] for [n >= 0] *)
Definition slice0 (n : nat) (s : string) : string := substring 0 n s.

(** *** Regular expressions with the [g] flag

    A matcher says whether the expression matches at the start of the
    string, and how many characters the match consumes. *)

Definition matcher := string -> option nat.

(** Length of the longest prefix whose characters are all in the class. *)
Fixpoint run_length (cls : ascii -> bool) (s : string) : nat :=
  match s with
  | EmptyString => 0
  | String c s' => if cls c then S (run_length cls s') else 0
  end.

Fixpoint strip_prefix (p s : string) : option string :=
  match p with
  | EmptyString => Some s
  | String a p' =>
      match s with
      | EmptyString => None
      | String b s' => if Ascii.eqb a b then strip_prefix p' s' else None
      end
  end.

(** [lit cls+]: the literal, then one or more characters of the class,
    greedily. *)
Definition lit_plus (lit : string) (cls : ascii -> bool) : matcher :=
  fun s =>
    match strip_prefix lit s with
    | Some rest =>
        match run_length cls rest with
        | 0 => None
        | S k => Some (String.length lit + S k)
        end
    | None => None
    end.

(** [[cls]]: one character of the class. *)
Definition one_of (cls : ascii -> bool) : matcher :=
  fun s =>
    match s with
    | String c _ => if cls c then Some 1 else None
    | EmptyString => None
    end.

(** [r1|r2]: the first alternative that matches. *)
Definition orelse (m1 m2 : matcher) : matcher :=
  fun s => match m1 s with Some n => Some n | None => m2 s end.

(** [s.replace(/r/g, rep)]: scan from the left; at a match emit [rep] and
    resume after the match, otherwise copy one character.  [skip] counts the
    characters of the current match still to be passed over. *)
Fixpoint replace_from (m : matcher) (rep : string) (skip : nat) (s : string) : string :=
  match s with
  | EmptyString => EmptyString
  | String c s' =>
      match skip with
      | S k => replace_from m rep k s'
      | 0 =>
          match m s with
          | Some (S k) => rep ++ replace_from m rep k s'
          | _ => String c (replace_from m rep 0 s')
          end
      end
  end.

Definition replace_all (m : matcher) (rep : string) (s : string) : string :=
  replace_from m rep 0 s.

(** [String.prototype.trim] *)
Fixpoint trimStart (s : string) : string :=
  match s with
  | EmptyString => EmptyString
  | String c s' => if is_space c then trimStart s' else s
  end.

Fixpoint trimEnd (s : string) : string :=
  match s with
  | EmptyString => EmptyString
  | String c s' =>
      match trimEnd s' with
      | EmptyString => if is_space c then EmptyString else String c EmptyString
      | r => String c r
      end
  end.

Definition trim (s : string) : string := trimEnd (trimStart s).

(** [Array.prototype.join] on strings *)
Fixpoint join (sep : string) (l : list string) : string :=
  match l with
  | [] => EmptyString
  | [x] => x
  | x :: rest => x ++ sep ++ join sep rest
  end.

(** Decimal rendering of a non-negative integer, as [`${n}`] gives it. *)
Definition of_nat (n : nat) : string := NilEmpty.string_of_uint (Nat.to_uint n).

(** Truthiness of a string: only the empty string is falsy. *)
Definition truthy (s : string) : bool :=
  match s with EmptyString => false | _ => true end.

End JsString.

(* ================================================================= *)
(** ** services/sentimentService.js: the text normalizer *)

Module Normalizer.
Import JsString.

(** [/http\S+|www\S+|https\S+/g] *)
Definition url_re : matcher :=
  orelse (lit_plus "http" is_nonspace)
    (orelse (lit_plus "www" is_nonspace) (lit_plus "https" is_nonspace)).

(** [/@\w+|#\w+/g] *)
Definition tag_re : matcher :=
  orelse (lit_plus "@" is_word) (lit_plus "#" is_word).

(** [/[^a-z\s]/g] *)
Definition other_re : matcher := one_of is_not_letter_or_space.

(** [/\s+/g] *)
Definition spaces_re : matcher := lit_plus "" is_space.

(** [preprocessText].  The argument is already a string, so [String(text)]
    is the identity and nothing in the body can throw: the [catch] branch,
    which returns the empty string, is not reachable. *)
Definition preprocessText (text : string) : string :=
  let text := toLowerCase text in
  trim
    (replace_all spaces_re " "
       (replace_all other_re " "
          (replace_all tag_re ""
             (replace_all url_re "" text)))).

End Normalizer.

(* ================================================================= *)
(** ** JavaScript arrays *)

Module JsArray.

Local Open Scope Z_scope.

Section Arrays.
Context {A : Type}.

(** [Array.prototype.slice(start, end)] for integer arguments: a negative
    index counts from the end, and both are clamped to [0, length]. *)
Definition slice (start end_ : Z) (l : list A) : list A :=
  let len := Z.of_nat (List.length l) in
  let k := if start <? 0 then Z.max (len + start) 0 else Z.min start len in
  let final := if end_ <? 0 then Z.max (len + end_) 0 else Z.min end_ len in
  firstn (Z.to_nat (final - k)) (skipn (Z.to_nat k) l).

(** [array.map((x, idx) => f(idx, x))], the index starting at [i]. *)
Fixpoint mapi_from {B : Type} (f : nat -> A -> B) (i : nat) (l : list A) : list B :=
  match l with
  | [] => []
  | x :: rest => f i x :: mapi_from f (S i) rest
  end.

Definition mapi {B : Type} (f : nat -> A -> B) (l : list A) : list B :=
  mapi_from f 0%nat l.

End Arrays.

End JsArray.

(* ================================================================= *)
(** ** JavaScript numbers *)

Module JsNumber.

Local Open Scope Z_scope.

(** [Math.round] on binary64: the integer nearest to [x], ties towards
    positive infinity; NaN, the infinities and the zeros are returned
    unchanged and a result of zero keeps the sign of [x].  A finite float
    is [(-1)^s * m * 2^e]; with [e >= 0] it is already an integer. *)
Definition Math_round (x : float) : float :=
  match Prim2SF x with
  | S754_finite s m e =>
      if 0 <=? e then x
      else
        let d := 2 ^ (- e) in
        let v := if s then Z.neg m else Z.pos m in
        let n := (2 * v + d) / (2 * d) in
        if n =? 0 then (if s then neg_zero else zero)
        else if 0 <? n then PrimFloat.of_uint63 (Uint63.of_Z n)
        else PrimFloat.opp (PrimFloat.of_uint63 (Uint63.of_Z (- n)))
  | _ => x
  end.

End JsNumber.

(* ================================================================= *)
(** ** Effects: the event log, the environment and the monad *)

Module Effects.

(** A thrown [Error]; only its [message] is ever read. *)
Record error : Type := Error { message : string }.

(** One element of what [pipe(text)] resolves to; [label] and [score] may
    be missing, which the service guards against with [?.]. *)
Record prediction : Type := Prediction {
  label : option string;
  score : option float
}.

(** [await pipe(text)]: throws, or resolves to a value whose element [0]
    ([result?.[0]]) is present or not. *)
Inductive pipe_outcome : Type :=
| PipeThrows (e : error)
| PipeReturns (first : option prediction).

(** [model.generateContent(prompt)], [result.response] and
    [response.text()] taken together: a text or a thrown error. *)
Inductive gen_outcome : Type :=
| GenText (text : string)
| GenThrows (e : error).

(** A row object of [Papa.parse(text, {header: true})]: its own properties
    in the order [Object.keys] lists them; a cell is a string. *)
Definition row : Type := list (string * string).

(** An entry of [parseResult.errors]. *)
Record parse_error : Type := ParseError {
  error_type : string;
  error_code : string;
  error_message : string
}.

Record parse_result : Type := ParseResult {
  data : list row;
  errors : list parse_error
}.

Inductive event : Type :=
| Console (msg : string)
| ConsoleError (msg : string) (e : error)
| LoadModel (model : string) (failure : option error)
| Classify (model : string) (input : string) (out : pipe_outcome)
| Generate (prompt : string) (out : gen_outcome)
| Sleep (ms : Z).

(** The world outside the process.  Each capability may answer differently
    on every call: it sees the events so far. *)
Record environment : Type := Environment {
  (** [process.env.GEMINI_API_KEY] is set (and not empty) *)
  GEMINI_API_KEY : bool;
  (** [pipeline('sentiment-analysis', model)]: [None] when it resolves *)
  pipeline : list event -> string -> option error;
  (** the loaded pipeline applied to a text *)
  pipe : list event -> string -> string -> pipe_outcome;
  (** the generative model applied to a prompt *)
  generateContent : list event -> string -> gen_outcome;
  (** [Papa.parse(csvText, { header: true, skipEmptyLines: true })] *)
  Papa_parse : string -> parse_result
}.

(** Module state of the process: the log and the memoized
    [sentimentPipeline] (the identifier of the model it was loaded from). *)
Record state : Type := State {
  log : list event;
  sentimentPipeline : option string
}.

Definition initial : state := State [] None.

Inductive result (A : Type) : Type :=
| Returned (a : A)
| Thrown (e : error)
| Diverged.
Arguments Returned {A} a.
Arguments Thrown {A} e.
Arguments Diverged {A}.

Definition M (A : Type) : Type := state -> result A * state.

Definition ret {A} (a : A) : M A := fun st => (Returned a, st).

Definition throw {A} (e : error) : M A := fun st => (Thrown e, st).

Definition diverge {A} : M A := fun st => (Diverged, st).

Definition bind {A B} (m : M A) (k : A -> M B) : M B :=
  fun st =>
    match m st with
    | (Returned a, st') => k a st'
    | (Thrown e, st') => (Thrown e, st')
    | (Diverged, st') => (Diverged, st')
    end.

(** [try { m } catch (e) { h e }] *)
Definition try_catch {A} (m : M A) (h : error -> M A) : M A :=
  fun st =>
    match m st with
    | (Thrown e, st') => h e st'
    | r => r
    end.

Definition emit (ev : event) : M unit :=
  fun st => (Returned tt, State (log st ++ [ev])%list (sentimentPipeline st)).

Definition get_log : M (list event) := fun st => (Returned (log st), st).

Definition get_pipeline : M (option string) :=
  fun st => (Returned (sentimentPipeline st), st).

Definition set_pipeline (p : string) : M unit :=
  fun st => (Returned tt, State (log st) (Some p)).

Definition console_log (msg : string) : M unit := emit (Console msg).

Definition console_error (msg : string) (e : error) : M unit :=
  emit (ConsoleError msg e).

End Effects.

Declare Scope js_scope.
Delimit Scope js_scope with js.
Notation "x <- m ;; k" := (Effects.bind m (fun x => k))
  (at level 61, m at next level, right associativity) : js_scope.
Notation "m ;;; k" := (Effects.bind m (fun _ => k))
  (at level 61, right associativity) : js_scope.

(* ================================================================= *)
(** ** services/sentimentService.js *)

Module SentimentService.
Import JsString JsNumber Effects Normalizer.
Local Open Scope js_scope.

Definition MODEL_3_CLASS : string :=
  "Xenova/cardiffnlp-twitter-roberta-base-sentiment-latest".

Definition MODEL_2_CLASS : string :=
  "Xenova/distilbert-base-uncased-finetuned-sst-2-english".

(** [sentimentPipeline = await pipeline('sentiment-analysis', model)]: the
    assignment happens only when the promise resolves. *)
Definition load_pipeline (env : environment) (model : string) : M string :=
  fun st =>
    match pipeline env (log st) model with
    | None =>
        (emit (LoadModel model None) ;;; set_pipeline model ;;; ret model) st
    | Some e => (emit (LoadModel model (Some e)) ;;; throw e) st
    end.

(** [initPipeline].  The value returned is the module variable
    [sentimentPipeline], which at that point is the handle just stored or
    the one found. *)
Definition initPipeline (env : environment) : M string :=
  p <- get_pipeline ;;
  match p with
  | Some handle => ret handle
  | None =>
      console_log "🔄 Loading sentiment analysis model..." ;;;
      try_catch
        (handle <- load_pipeline env MODEL_3_CLASS ;;
         console_log "✅ Sentiment model loaded (3-class)" ;;;
         ret handle)
        (fun e =>
           console_error
             "⚠️ Failed to load 3-class sentiment model, falling back to 2-class. Error:"
             e ;;;
           handle <- load_pipeline env MODEL_2_CLASS ;;
           console_log "✅ Sentiment model loaded (2-class fallback)" ;;;
           ret handle)
  end.

Inductive Sentiment : Type := Negative | Neutral | Positive.

(** The string stored in the [sentiment] field. *)
Definition Sentiment_string (s : Sentiment) : string :=
  match s with
  | Negative => "negative"
  | Neutral => "neutral"
  | Positive => "positive"
  end.

Definition Sentiment_eqb (a b : Sentiment) : bool :=
  match a, b with
  | Negative, Negative | Neutral, Neutral | Positive, Positive => true
  | _, _ => false
  end.

Record AnalyzedReview : Type := mkAnalyzedReview {
  originalReview : string;
  cleanedText : string;
  sentiment : Sentiment;
  confidence : float
}.

Definition NEUTRAL_SCORE_THRESHOLD : float := 0.80%float.

(** [await pipe(truncated)] *)
Definition call_pipe (env : environment) (handle text : string)
  : M (option prediction) :=
  fun st =>
    match pipe env (log st) handle text with
    | PipeReturns first =>
        (emit (Classify handle text (PipeReturns first)) ;;; ret first) st
    | PipeThrows e => (emit (Classify handle text (PipeThrows e)) ;;; throw e) st
    end.

(** [result?.[0]?.label?.toLowerCase() || 'neutral'] *)
Definition label_of (first : option prediction) : string :=
  match first with
  | Some p =>
      match label p with
      | Some l => if truthy (toLowerCase l) then toLowerCase l else "neutral"
      | None => "neutral"
      end
  | None => "neutral"
  end.

(** [result?.[0]?.score ?? 0] *)
Definition score_of (first : option prediction) : float :=
  match first with
  | Some p => match score p with Some s => s | None => 0%float end
  | None => 0%float
  end.

(** The [if / else if] chain that maps a label to a category. *)
Definition map_label (label : string) : Sentiment :=
  if includes label "neg" then Negative
  else if includes label "neu" then Neutral
  else if includes label "pos" then Positive
  else Neutral.

(** The thresholding [if]. *)
Definition apply_threshold (normalized : Sentiment) (score : float) : Sentiment :=
  if negb (Sentiment_eqb normalized Neutral)
     && PrimFloat.ltb score NEUTRAL_SCORE_THRESHOLD
  then Neutral else normalized.

(** [Math.round(score * 1000) / 1000] *)
Definition round3 (score : float) : float :=
  PrimFloat.div (Math_round (PrimFloat.mul score 1000%float)) 1000%float.

(** The body of the [for ... of] loop for one review whose cleaned text is
    not empty: the [try] block and its [catch]. *)
Definition analyze_one (env : environment) (handle review cleaned : string)
    (results : list AnalyzedReview) : M (list AnalyzedReview) :=
  try_catch
    (let truncated := slice0 512 cleaned in
     result <- call_pipe env handle truncated ;;
     let label := label_of result in
     let score := score_of result in
     let normalized := apply_threshold (map_label label) score in
     ret (results ++ [mkAnalyzedReview review cleaned normalized (round3 score)])%list)
    (fun error => console_error "Error analyzing review:" error ;;; ret results).

Fixpoint analyze_loop (env : environment) (handle : string)
    (reviews : list string) (results : list AnalyzedReview)
  : M (list AnalyzedReview) :=
  match reviews with
  | [] => ret results
  | review :: rest =>
      let cleaned := preprocessText review in
      if negb (truthy cleaned) then analyze_loop env handle rest results
      else
        results' <- analyze_one env handle review cleaned results ;;
        analyze_loop env handle rest results'
  end.

Definition analyzeReviews (env : environment) (reviews : list string)
  : M (list AnalyzedReview) :=
  handle <- initPipeline env ;;
  analyze_loop env handle reviews [].

End SentimentService.

(* ================================================================= *)
(** ** services/geminiService.js *)

Module GeminiService.
Import JsString JsArray Effects.
Local Open Scope js_scope.

(** The line feed of the template literals. *)
Definition nl : string := String (ascii_of_nat 10) EmptyString.

(** The [for] loop of [chunkArray]: [i] is the loop variable, [chunks] the
    array built so far; one unit of fuel is spent per iteration. *)
Fixpoint chunkArray_loop {A : Type} (fuel : nat) (array : list A) (size i : Z)
    (chunks : list (list A)) : option (list (list A)) :=
  if (i <? Z.of_nat (List.length array))%Z then
    match fuel with
    | O => None
    | S fuel' =>
        chunkArray_loop fuel' array size (i + size)%Z
          (chunks ++ [slice i (i + size)%Z array])%list
    end
  else Some chunks.

(** [chunkArray(array, size)] for an integer [size]; [None] when the loop
    does not terminate. *)
Definition chunkArray {A : Type} (array : list A) (size : Z)
  : option (list (list A)) :=
  chunkArray_loop (S (List.length array)) array size 0%Z [].

(** [await sleep(ms)] *)
Definition sleep (ms : Z) : M unit := emit (Sleep ms).

(** [model.generateContent(prompt)], then [result.response] and
    [response.text()]. *)
Definition generate (env : environment) (prompt : string) : M string :=
  fun st =>
    match generateContent env (log st) prompt with
    | GenText text => (emit (Generate prompt (GenText text)) ;;; ret text) st
    | GenThrows e => (emit (Generate prompt (GenThrows e)) ;;; throw e) st
    end.

(** The prompt of one chunk. *)
Definition chunk_prompt (chunk : list string) : string :=
  nl ++
  "You are an educational consultant analyzing student feedback. Below are "
  ++ of_nat (List.length chunk) ++ " negative reviews from students:" ++ nl ++
  nl ++
  join nl (mapi (fun idx review => of_nat (idx + 1) ++ ". " ++ review) chunk)
  ++ nl ++
  nl ++
  "Please provide:" ++ nl ++
  "1. **Key Issues Identified**: Summarize the main problems mentioned" ++ nl ++
  "2. **Common Themes**: What patterns do you see across these reviews?" ++ nl ++
  "3. **Priority Areas**: What should be addressed first?" ++ nl ++
  "4. **Specific Recommendations**: Actionable steps to improve" ++ nl ++
  nl ++
  "Keep your analysis concise and actionable." ++ nl.

(** The string pushed when the call for chunk [i] throws. *)
Definition batch_error (i : nat) (e : error) : string :=
  "Error processing batch " ++ of_nat (i + 1) ++ ": " ++ message e.

(** The prompt of the final summary. *)
Definition final_prompt (batchResults : list string) : string :=
  nl ++
  "Based on the following analyses of student feedback batches, provide a comprehensive summary with actionable recommendations:"
  ++ nl ++
  nl ++
  join nl
    (mapi (fun idx result =>
             nl ++ "### Batch " ++ of_nat (idx + 1) ++ " Analysis:" ++ nl ++ result)
       batchResults)
  ++ nl ++
  nl ++
  "Please provide:" ++ nl ++
  "1. **Overall Summary**: What are the most critical issues?" ++ nl ++
  "2. **Top 5 Recommendations**: Prioritized, actionable steps" ++ nl ++
  "3. **Quick Wins**: Easy improvements that can be implemented immediately" ++ nl ++
  "4. **Long-term Strategy**: Structural changes for sustained improvement" ++ nl ++
  nl ++
  "Format your response in clear markdown." ++ nl.

(** The divider of the fallback result. *)
Definition divider : string := nl ++ nl ++ "---" ++ nl ++ nl.

(** The [for] loop over the chunks: [i] is the loop variable, [rest] the
    chunks from index [i] on, [total] is [chunks.length]. *)
Fixpoint chunk_loop (env : environment) (total i : nat)
    (rest : list (list string)) (batchResults : list string)
  : M (list string) :=
  match rest with
  | [] => ret batchResults
  | chunk :: rest' =>
      console_log
        ("Processing chunk " ++ of_nat (i + 1) ++ "/" ++ of_nat total ++ "...") ;;;
      batchResults' <-
        try_catch
          (text <- generate env (chunk_prompt chunk) ;;
           ret (batchResults ++ [text])%list)
          (fun error =>
             console_error ("Error processing chunk " ++ of_nat (i + 1) ++ ":")
               error ;;;
             ret (batchResults ++ [batch_error i error])%list) ;;
      (if (i <? total - 1)%nat then sleep 1000 else ret tt) ;;;
      chunk_loop env total (i + 1) rest' batchResults'
  end.

Definition API_KEY_ERROR : error :=
  Error "GEMINI_API_KEY not configured in environment variables".

Definition analyzeAndRecommend (env : environment) (reviews : list string)
    (chunkSize : Z) : M string :=
  if negb (GEMINI_API_KEY env) then throw API_KEY_ERROR
  else
    match chunkArray reviews chunkSize with
    | None => diverge
    | Some chunks =>
        batchResults <- chunk_loop env (List.length chunks) 0 chunks [] ;;
        try_catch
          (generate env (final_prompt batchResults))
          (fun error =>
             console_error "Error generating final summary:" error ;;;
             ret (join divider batchResults))
    end.

End GeminiService.

(* ================================================================= *)
(** ** server.js *)

Module Server.
Import JsString JsArray Effects SentimentService GeminiService.
Local Open Scope js_scope.

(** The JSON bodies the handlers send, one constructor per object shape. *)
Inductive body : Type :=
| ErrorBody (error : string)
| InvalidCsvBody (error : string) (details : list parse_error)
| MissingColumnBody (error : string) (availableColumns : list string)
| FailureBody (error : string) (message : string)
| AnalysisBody (success : bool) (totalReviews : nat)
    (results : list AnalyzedReview)
| NoNegativesBody (success : bool) (message : string) (recommendations : string)
| ReportBody (success : bool) (analyzedCount : nat) (recommendations : string)
| HealthBody (status : string) (message : string)
| InfoBody (message : string) (version : string)
    (endpoints : list (string * string)).

(** [res.status(code).json(body)] ([res.json] alone sends 200), or
    [res.sendFile(path)]. *)
Inductive response : Type :=
| Json (status : nat) (b : body)
| SendFile (path : string).

(** The double quote, for the constants that contain one. *)
Definition dq : string := String (ascii_of_nat 34) EmptyString.

(** [app.get('/api', ...)] *)
Definition api_info : response :=
  Json 200
    (InfoBody "AI Feedback Analyzer API" "1.0.0"
       [("health", "/api/health");
        ("analyze", "POST /api/analyze");
        ("recommendations", "POST /api/recommendations")]).

(** [app.get('/api/health', ...)] *)
Definition api_health : response :=
  Json 200 (HealthBody "OK" "Server is running").

(** [Object.keys(row)] *)
Definition Object_keys (r : row) : list string := map fst r.

(** [row[key]]: [None] is [undefined]. *)
Fixpoint get (r : row) (key : string) : option string :=
  match r with
  | [] => None
  | (k, v) :: rest => if String.eqb k key then Some v else get rest key
  end.

(** [headers.find(h => h.toLowerCase() === 'review')] *)
Definition find_review_column (headers : list string) : option string :=
  List.find (fun h => String.eqb (toLowerCase h) "review") headers.

(** The predicate of the [filter]: [review && review.trim() !== ''] *)
Definition nonblank (review : option string) : bool :=
  match review with
  | Some r => truthy r && negb (String.eqb (trim r) "")
  | None => false
  end.

(** [data.map(row => row[reviewColumn]).filter(...)]; what passes the
    filter is a string, which the last step records in the type. *)
Definition extract_reviews (data : list row) (reviewColumn : string)
  : list string :=
  flat_map (fun review => match review with Some r => [r] | None => [] end)
    (filter nonblank (map (fun r => get r reviewColumn) data)).

Definition MISSING_COLUMN : string :=
  "CSV must contain a " ++ dq ++ "review" ++ dq ++ " column (case-insensitive)".

(** [app.post('/api/analyze', ...)]; [file] is [req.file.buffer] decoded,
    [None] when no file came with the request. *)
Definition post_analyze (env : environment) (file : option string)
  : M response :=
  try_catch
    (match file with
     | None => ret (Json 400 (ErrorBody "No file uploaded"))
     | Some csvText =>
         let parseResult := Papa_parse env csvText in
         if (0 <? List.length (errors parseResult))%nat
         then ret (Json 400
                     (InvalidCsvBody "Invalid CSV format" (errors parseResult)))
         else
           let data := data parseResult in
           let headers := Object_keys (hd [] data) in
           match find_review_column headers with
           | None => ret (Json 400 (MissingColumnBody MISSING_COLUMN headers))
           | Some reviewColumn =>
               let reviews := extract_reviews data reviewColumn in
               if (List.length reviews =? 0)%nat
               then ret (Json 400 (ErrorBody "No valid reviews found in CSV"))
               else
                 console_log
                   ("Analyzing " ++ of_nat (List.length reviews) ++ " reviews...") ;;;
                 results <- analyzeReviews env reviews ;;
                 ret (Json 200 (AnalysisBody true (List.length reviews) results))
           end
     end)
    (fun error =>
       console_error "Error analyzing reviews:" error ;;;
       ret (Json 500 (FailureBody "Failed to analyze reviews" (message error)))).

(** [req.body] of [/api/recommendations]: [negativeReviews] is [None] when
    the field is missing or not an array; the two numbers are [None] when
    missing, and integers otherwise. *)
Record recommendations_body : Type := RecommendationsBody {
  negativeReviews : option (list string);
  maxReviews : option Z;
  chunkSize : option Z
}.

(** A destructuring default: [{ x = d } = obj] *)
Definition default {A : Type} (x : option A) (d : A) : A :=
  match x with Some v => v | None => d end.

Definition CANNED : string :=
  "All reviews are positive! Keep up the great work! ðŸŽ‰".

(** [app.post('/api/recommendations', ...)] *)
Definition post_recommendations (env : environment) (req : recommendations_body)
  : M response :=
  try_catch
    (let maxReviews := default (maxReviews req) 100%Z in
     let chunkSize := default (chunkSize req) 50%Z in
     match negativeReviews req with
     | None =>
         ret (Json 400
                (ErrorBody "Invalid request: negativeReviews array required"))
     | Some negativeReviews =>
         if (List.length negativeReviews =? 0)%nat
         then ret (Json 200
                     (NoNegativesBody true "No negative reviews to analyze" CANNED))
         else
           let reviewsToAnalyze := slice 0 maxReviews negativeReviews in
           console_log
             ("Generating recommendations for "
              ++ of_nat (List.length reviewsToAnalyze) ++ " negative reviews...") ;;;
           recommendations <- analyzeAndRecommend env reviewsToAnalyze chunkSize ;;
           ret (Json 200
                  (ReportBody true (List.length reviewsToAnalyze) recommendations))
     end)
    (fun error =>
       console_error "Error generating recommendations:" error ;;;
       ret (Json 500
              (FailureBody "Failed to generate recommendations" (message error)))).

(** [app.get('*', ...)]: the handler of every GET that nothing before it
    answered; the path sent is relative to the directory of [server.js]. *)
Definition get_any (path : string) : response :=
  if prefix "/api" path then Json 404 (ErrorBody "Not found")
  else SendFile "../frontend/build/index.html".

End Server.

(* ================================================================= *)
(** ** frontend/src/components: what the pages compute from a result *)

Module Frontend.
Import JsString Effects SentimentService Server.

(** [r.sentiment === s], on the string that the JSON carries. *)
Definition sentiment_is (s : string) (r : AnalyzedReview) : bool :=
  String.eqb (Sentiment_string (sentiment r)) s.

(** [Number(n)] for an array length. *)
Definition of_length (n : nat) : float :=
  PrimFloat.of_uint63 (Uint63.of_Z (Z.of_nat n)).

(** SentimentResults.js, [stats]. *)
Record stats : Type := Stats {
  positive : nat;
  negative : nat;
  neutral : nat;
  total : nat;
  avgConfidence : float
}.

Definition compute_stats (results : list AnalyzedReview) : stats :=
  let positive := List.length (filter (sentiment_is "positive") results) in
  let negative := List.length (filter (sentiment_is "negative") results) in
  let neutral := List.length (filter (sentiment_is "neutral") results) in
  let total := List.length results in
  let avgConfidence :=
    PrimFloat.div
      (fold_left (fun sum r => PrimFloat.add sum (confidence r)) results 0%float)
      (of_length total) in
  Stats positive negative neutral total avgConfidence.

(** [array.sort((a, b) => b.confidence - a.confidence)]: the order is by
    falling confidence, and elements that compare equal keep their order
    (the sort is stable); confidences are numbers that compare, not NaN. *)
Fixpoint insert (a : AnalyzedReview) (sorted : list AnalyzedReview)
  : list AnalyzedReview :=
  match sorted with
  | [] => [a]
  | b :: rest =>
      if PrimFloat.ltb (confidence a) (confidence b)
      then b :: insert a rest
      else a :: b :: rest
  end.

Definition sort_by_confidence (l : list AnalyzedReview) : list AnalyzedReview :=
  fold_right insert [] l.

(** AIRecommendations.js, [negativeReviews]. *)
Definition negativeReviews_of (results : list AnalyzedReview) : list string :=
  map cleanedText
    (sort_by_confidence (filter (sentiment_is "negative") results)).

(** AIRecommendations.js, [generateRecommendations]: the body posted to
    [/api/recommendations], or [None] when the component answers by itself
    because there is no negative review. *)
Definition generateRecommendations (results : list AnalyzedReview)
  : option recommendations_body :=
  let negativeReviews := negativeReviews_of results in
  if (List.length negativeReviews =? 0)%nat then None
  else Some (RecommendationsBody (Some negativeReviews) (Some 100%Z) (Some 50%Z)).

End Frontend.

(* ================================================================= *)
(** ** Vocabulary of the properties *)

Module Shape.
Import JsString JsArray Normalizer Effects SentimentService GeminiService.

(** The string starts with the space character U+0020. *)
Definition starts_with_space (s : string) : bool :=
  match s with
  | String c _ => Ascii.eqb c " "
  | EmptyString => false
  end.

(** The string ends with the space character. *)
Fixpoint ends_with_space (s : string) : bool :=
  match s with
  | EmptyString => false
  | String c EmptyString => Ascii.eqb c " "
  | String _ s' => ends_with_space s'
  end.

(** Every character satisfies [p]. *)
Fixpoint string_forall (p : ascii -> bool) (s : string) : bool :=
  match s with
  | EmptyString => true
  | String c s' => p c && string_forall p s'
  end.

(** Only [a-z] and spaces, and no space directly after a space. *)
Fixpoint single_spaced (s : string) : bool :=
  match s with
  | EmptyString => true
  | String c s' =>
      (is_lower c || Ascii.eqb c " ")
      && negb (Ascii.eqb c " " && starts_with_space s')
      && single_spaced s'
  end.

(** What the outside world sees of a run: the calls to the generative
    model and the pauses, in order, without their outcomes. *)
Inductive call : Type :=
| CallGenerate (prompt : string)
| CallSleep (ms : Z).

Fixpoint calls (evs : list event) : list call :=
  match evs with
  | [] => []
  | Generate prompt _ :: rest => CallGenerate prompt :: calls rest
  | Sleep ms :: rest => CallSleep ms :: calls rest
  | _ :: rest => calls rest
  end.

(** The calls to the generative model, in order: the prompt and what came
    back. *)
Fixpoint generations (evs : list event) : list (string * gen_outcome) :=
  match evs with
  | [] => []
  | Generate prompt out :: rest => (prompt, out) :: generations rest
  | _ :: rest => generations rest
  end.

(** [l] with [sep] put between every two neighbours. *)
Fixpoint between {A : Type} (sep : A) (l : list A) : list A :=
  match l with
  | [] => []
  | [x] => [x]
  | x :: rest => x :: sep :: between sep rest
  end.

(** What the batch results must be, given the outcomes of the chunk calls
    in chunk order: the text, or the note that names the batch (counted
    from 1) and the message of the error. *)
Definition entry (j : nat) (out : gen_outcome) : string :=
  match out with
  | GenText text => text
  | GenThrows e =>
      "Error processing batch " ++ of_nat (j + 1) ++ ": " ++ message e
  end.

Definition batch_entries (outs : list gen_outcome) : list string :=
  mapi entry outs.

(** The piece number [k] (from 0) of an array cut every [sz] elements, and
    the number of pieces: the quotient of the length by [sz], rounded up. *)
Definition piece {A : Type} (sz : nat) (array : list A) (k : nat) : list A :=
  firstn sz (skipn (k * sz) array).

Definition pieces {A : Type} (sz : nat) (array : list A) : nat :=
  (List.length array + sz - 1) / sz.

(** The rows of a parsed CSV whose column [h] comes first: one row per
    cell, with the other cells of the row after it. *)
Definition table (h : string) (rows : list (string * row)) : list row :=
  map (fun r => (h, fst r) :: snd r) rows.

(** The texts given to the classifier, in order. *)
Fixpoint classified (evs : list event) : list string :=
  match evs with
  | [] => []
  | Classify _ input _ :: rest => input :: classified rest
  | _ :: rest => classified rest
  end.

(** The record [r] was built from an answer that the classifier [handle]
    gave, among the events [evs], for the first 512 characters of the
    cleaned text of [r]; the cleaned text is the normalized review and is
    not empty. *)
Definition record_from (handle : string) (evs : list event)
    (r : AnalyzedReview) : Prop :=
  cleanedText r = preprocessText (originalReview r)
  /\ truthy (cleanedText r) = true
  /\ exists first,
       In (Classify handle (slice0 512 (cleanedText r)) (PipeReturns first)) evs
       /\ sentiment r = apply_threshold (map_label (label_of first)) (score_of first)
       /\ confidence r = round3 (score_of first).

(** The answers of the classifier that were values, in order. *)
Fixpoint answers (evs : list event) : list (option prediction) :=
  match evs with
  | [] => []
  | Classify _ _ (PipeReturns first) :: rest => first :: answers rest
  | _ :: rest => answers rest
  end.

(** The errors that the classifier threw, in order. *)
Fixpoint failures (evs : list event) : list error :=
  match evs with
  | [] => []
  | Classify _ _ (PipeThrows e) :: rest => e :: failures rest
  | _ :: rest => failures rest
  end.

(** [n] is the binary64 number [x] rounded to the nearest integer, a half
    going upwards.  The exact value of a finite [x] is [v * 2^e] with [v]
    the signed mantissa; for [e < 0] the condition reads
    [n - 1/2 <= v / 2^(-e) < n + 1/2], both sides scaled by [2 * 2^(-e)]. *)
Definition nearest_integer (n : Z) (x : float) : Prop :=
  match Prim2SF x with
  | S754_zero _ => n = 0%Z
  | S754_finite s m e =>
      let v := if s then Z.neg m else Z.pos m in
      if (0 <=? e)%Z then n = (v * 2 ^ e)%Z
      else ((2 * n - 1) * 2 ^ (- e) <= 2 * v < (2 * n + 1) * 2 ^ (- e))%Z
  | _ => False
  end.

(** The loads with what came of them, in order. *)
Fixpoint load_results (evs : list event) : list (string * option error) :=
  match evs with
  | [] => []
  | LoadModel model failure :: rest => (model, failure) :: load_results rest
  | _ :: rest => load_results rest
  end.

(** Every load among the events [evs], which follow the log [log0], is
    recorded with what the loader answered at that point. *)
Definition loads_as_answered (env : environment) (log0 evs : list event)
  : Prop :=
  forall pre model failure post,
    evs = (pre ++ LoadModel model failure :: post)%list ->
    pipeline env (log0 ++ pre)%list model = failure.

(** The models that were loaded or tried, in order. *)
Fixpoint loads (evs : list event) : list string :=
  match evs with
  | [] => []
  | LoadModel model _ :: rest => model :: loads rest
  | _ :: rest => loads rest
  end.

(** [l1] is [l2] with some elements left out, the order kept. *)
Inductive subsequence {A : Type} : list A -> list A -> Prop :=
| sub_nil : subsequence [] []
| sub_skip x l1 l2 : subsequence l1 l2 -> subsequence l1 (x :: l2)
| sub_keep x l1 l2 : subsequence l1 l2 -> subsequence (x :: l1) (x :: l2).

End Shape.

(* ================================================================= *)
(** ** Example environments *)

Module Examples.
Import JsString Effects Shape SentimentService GeminiService.

Definition no_csv : string -> parse_result := fun _ => ParseResult [] [].

(** The classifier answers "Negative" with 0.55 for the text [terrible]
    and "Positive" with 0.92 for any other. *)
Definition two_answers : environment :=
  Environment true (fun _ _ => None)
    (fun _ _ text =>
       if String.eqb text "terrible"
       then PipeReturns (Some (Prediction (Some "Negative") (Some 0.55%float)))
       else PipeReturns (Some (Prediction (Some "Positive") (Some 0.92%float))))
    (fun _ _ => GenText "") no_csv.

(** The generative model answers every prompt with the number of calls
    made before it. *)
Definition counting_model : environment :=
  Environment true (fun _ _ => None) (fun _ _ _ => PipeReturns None)
    (fun evs _ => GenText ("analysis " ++ of_nat (List.length (generations evs))))
    no_csv.

(** The second call to the generative model throws. *)
Definition second_call_fails : environment :=
  Environment true (fun _ _ => None) (fun _ _ _ => PipeReturns None)
    (fun evs _ =>
       if (List.length (generations evs) =? 1)%nat
       then GenThrows (Error "quota exceeded")
       else GenText ("analysis " ++ of_nat (List.length (generations evs))))
    no_csv.

(** The final summary throws; the chunk calls work. *)
Definition summary_fails : environment :=
  Environment true (fun _ _ => None) (fun _ _ _ => PipeReturns None)
    (fun evs prompt =>
       if prefix (nl ++ "Based on") prompt
       then GenThrows (Error "overloaded")
       else GenText ("analysis " ++ of_nat (List.length (generations evs))))
    no_csv.


(** Two uploads of the same two-column sheet, the review column named
    [Reviews] in one and [review] in the other; the classifier answers
    "Positive" with 0.92. *)
Definition sheet : list (string * row) :=
  [("Great course", [("id", "1")]);
   ("", [("id", "2")]);
   ("!!!", [("id", "3")]);
   ("Too fast", [("id", "4")])].

Definition csv_Reviews : string :=
  "Reviews,id" ++ nl ++ "Great course,1" ++ nl ++ ",2" ++ nl ++ "!!!,3" ++ nl
  ++ "Too fast,4" ++ nl.

Definition csv_review : string :=
  "review,id" ++ nl ++ "Great course,1" ++ nl ++ ",2" ++ nl ++ "!!!,3" ++ nl
  ++ "Too fast,4" ++ nl.

Definition uploads : environment :=
  Environment true (fun _ _ => None)
    (fun _ _ _ =>
       PipeReturns (Some (Prediction (Some "Positive") (Some 0.92%float))))
    (fun _ _ => GenText "")
    (fun csvText =>
       if String.eqb csvText csv_Reviews then ParseResult (table "Reviews" sheet) []
       else if String.eqb csvText csv_review then ParseResult (table "review" sheet) []
       else ParseResult [] []).

(** The state of a process in which the 3-class model is loaded. *)
Definition loaded : state := State [] (Some MODEL_3_CLASS).

(** Only the 2-class model can be loaded; it answers "POSITIVE" with 0.99. *)
Definition fallback_only : environment :=
  Environment true
    (fun _ model =>
       if String.eqb model MODEL_3_CLASS then Some (Error "model not found")
       else None)
    (fun _ _ _ =>
       PipeReturns (Some (Prediction (Some "POSITIVE") (Some 0.99%float))))
    (fun _ _ => GenText "") no_csv.

(** No model can be loaded; uploads are parsed as in [uploads]. *)
Definition no_model : environment :=
  Environment true (fun _ _ => Some (Error "network down"))
    (fun _ _ _ => PipeReturns None) (fun _ _ => GenText "")
    (Papa_parse uploads).

(** The classifier throws on every text. *)
Definition classifier_down : environment :=
  Environment true (fun _ _ => None)
    (fun _ _ _ => PipeThrows (Error "out of memory"))
    (fun _ _ => GenText "") no_csv.

(** The classifier answers with a label and no score. *)
Definition no_score : environment :=
  Environment true (fun _ _ => None)
    (fun _ _ _ => PipeReturns (Some (Prediction (Some "Negative") None)))
    (fun _ _ => GenText "") no_csv.

(** The key of the generative model is not set. *)
Definition no_key : environment :=
  Environment false (fun _ _ => None) (fun _ _ _ => PipeReturns None)
    (fun evs _ => GenText ("analysis " ++ of_nat (List.length (generations evs))))
    no_csv.

(** An upload whose reviews hold no letter. *)
Definition csv_marks : string :=
  "review,id" ++ nl ++ "!!!,1" ++ nl ++ "42,2" ++ nl.

Definition marks_upload : environment :=
  Environment true (fun _ _ => None)
    (fun _ _ _ =>
       PipeReturns (Some (Prediction (Some "Positive") (Some 0.92%float))))
    (fun _ _ => GenText "")
    (fun csvText =>
       if String.eqb csvText csv_marks
       then ParseResult (table "review" [("!!!", [("id", "1")]);
                                         ("42", [("id", "2")])]) []
       else ParseResult [] []).

(** Three records as the service returns them. *)
Definition three_records : list AnalyzedReview :=
  [mkAnalyzedReview "Too fast" "too fast" Negative 0.91%float;
   mkAnalyzedReview "Great course" "great course" Positive 0.92%float;
   mkAnalyzedReview "Boring!" "boring" Negative 0.97%float].

End Examples.

(* ================================================================= *)
(** * Properties *)

(** ** The text normalizer *)

Module NormalizerFacts.
Import JsString Normalizer Shape.

(** Facts on single characters, by enumeration of the 256 code units. *)
Ltac by_cases_on_char c :=
  destruct c as [[|] [|] [|] [|] [|] [|] [|] [|]];
  vm_compute; intros; try reflexivity; try discriminate; auto.

Lemma space_is_space (c : ascii) : Ascii.eqb c " " = true -> is_space c = true.
Proof. by_cases_on_char c. Qed.

Lemma lower_is_not_space (c : ascii) : is_lower c = true -> is_space c = false.
Proof. by_cases_on_char c. Qed.

Lemma lower_is_not_blank (c : ascii) : is_lower c = true -> Ascii.eqb c " " = false.
Proof. by_cases_on_char c. Qed.

(** After [/[^a-z\s]/g -> ' '] every character is a letter or white space. *)
Lemma other_re_result (s : string) :
  string_forall (fun c => is_lower c || is_space c)
    (replace_all other_re " " s) = true.
Proof.
  unfold replace_all.
  induction s as [|c s IH]; [reflexivity|].
  cbn [replace_from other_re one_of].
  unfold is_not_letter_or_space.
  destruct (is_lower c || is_space c) eqn:E; cbn [negb].
  - cbn [string_forall]. now rewrite E, IH.
  - cbn. exact IH.
Qed.

Lemma spaces_re_match (c : ascii) (s : string) :
  spaces_re (String c s) =
  if is_space c then Some (S (run_length is_space s)) else None.
Proof.
  unfold spaces_re, lit_plus. cbn [strip_prefix run_length].
  destruct (is_space c); reflexivity.
Qed.

(** The collapse of white space, for a scan that starts anywhere ([skip =
    0]) or right after the first character of a run ([skip] is what is
    left of the run). *)
Lemma spaces_re_result (s : string) :
  string_forall (fun c => is_lower c || is_space c) s = true ->
  single_spaced (replace_from spaces_re " " 0 s) = true
  /\ single_spaced (replace_from spaces_re " " (run_length is_space s) s) = true
  /\ starts_with_space (replace_from spaces_re " " (run_length is_space s) s) = false.
Proof.
  induction s as [|c s IH]; [now cbn|].
  cbn [string_forall]. intros H. apply andb_true_iff in H as [Hc Hs].
  destruct (IH Hs) as (IH0 & IH1 & IH2). clear IH.
  assert (Hstep : is_space c = false ->
          replace_from spaces_re " " 0 (String c s)
          = String c (replace_from spaces_re " " 0 s)).
  { intros E. cbn [replace_from]. now rewrite spaces_re_match, E. }
  assert (Hkeep : is_space c = false ->
          single_spaced (String c (replace_from spaces_re " " 0 s)) = true
          /\ starts_with_space (String c (replace_from spaces_re " " 0 s)) = false).
  { intros E. rewrite E, orb_false_r in Hc.
    cbn [single_spaced starts_with_space].
    now rewrite Hc, (lower_is_not_blank c Hc), IH0. }
  destruct (is_space c) eqn:E.
  - repeat split.
    + cbn [replace_from]. rewrite spaces_re_match, E.
      change (" " ++ ?x) with (String " "%char x).
      cbn [single_spaced]. rewrite IH1, IH2. reflexivity.
    + cbn [run_length]. rewrite E. cbn [replace_from]. exact IH1.
    + cbn [run_length]. rewrite E. cbn [replace_from]. exact IH2.
  - destruct (Hkeep eq_refl) as [K1 K2].
    cbn [run_length]. rewrite E, (Hstep eq_refl). auto.
Qed.

Lemma trimStart_result (s : string) :
  single_spaced s = true ->
  single_spaced (trimStart s) = true /\ starts_with_space (trimStart s) = false.
Proof.
  induction s as [|c s IH]; [now cbn|].
  intros H. cbn [trimStart].
  destruct (is_space c) eqn:E.
  - apply IH. cbn [single_spaced] in H.
    now apply andb_true_iff in H as [_ H].
  - split; [exact H|]. cbn [starts_with_space].
    destruct (Ascii.eqb c " ") eqn:B; [|reflexivity].
    apply space_is_space in B. congruence.
Qed.

Lemma trimEnd_head (s : string) (d : ascii) (r : string) :
  trimEnd s = String d r -> exists t, s = String d t.
Proof.
  destruct s as [|c s]; [discriminate|].
  cbn [trimEnd]. destruct (trimEnd s); [destruct (is_space c)|];
    intros H; inversion H; subst; eauto.
Qed.

Lemma trimEnd_result (s : string) :
  single_spaced s = true ->
  single_spaced (trimEnd s) = true
  /\ ends_with_space (trimEnd s) = false
  /\ (starts_with_space s = false -> starts_with_space (trimEnd s) = false).
Proof.
  induction s as [|c s IH]; [now cbn|].
  intros H. cbn [single_spaced] in H.
  apply andb_true_iff in H as [H Hs]. apply andb_true_iff in H as [Hc Hadj].
  destruct (IH Hs) as (I1 & I2 & I3). clear IH.
  cbn [trimEnd]. destruct (trimEnd s) as [|d r] eqn:T.
  - destruct (is_space c) eqn:E; [now cbn|].
    assert (B : Ascii.eqb c " " = false).
    { destruct (Ascii.eqb c " ") eqn:B; [|reflexivity].
      apply space_is_space in B. congruence. }
    cbn. rewrite B, orb_false_r in *. now rewrite Hc.
  - destruct (trimEnd_head _ _ _ T) as [t ->].
    repeat split.
    + cbn [single_spaced starts_with_space] in *. now rewrite Hc, Hadj, I1.
    + exact I2.
    + cbn [starts_with_space]. auto.
Qed.

(** The three stages together. *)
Lemma preprocessText_invariants (text : string) :
  single_spaced (preprocessText text) = true
  /\ starts_with_space (preprocessText text) = false
  /\ ends_with_space (preprocessText text) = false.
Proof.
  unfold preprocessText, trim, replace_all.
  set (t := replace_from other_re " " 0 _).
  assert (Ht : string_forall (fun c => is_lower c || is_space c) t = true)
    by apply other_re_result.
  destruct (spaces_re_result t Ht) as (H0 & _ & _).
  destruct (trimStart_result _ H0) as (H1 & H2).
  destruct (trimEnd_result _ H1) as (H3 & H4 & H5).
  auto.
Qed.

Lemma single_spaced_chars (s : string) (c : ascii) :
  single_spaced s = true -> In c (list_ascii_of_string s) ->
  is_lower c = true \/ c = " "%char.
Proof.
  induction s as [|d s IH]; cbn [single_spaced list_ascii_of_string In];
    [tauto|].
  intros H [->|Hin].
  - apply andb_true_iff in H as [H _]. apply andb_true_iff in H as [H _].
    apply orb_true_iff in H as [H|H]; [now left|right].
    now apply Ascii.eqb_eq.
  - apply IH; [|exact Hin]. now apply andb_true_iff in H as [_ H].
Qed.

Lemma ends_with_space_app (r : string) : ends_with_space (r ++ " ") = true.
Proof.
  induction r as [|c r IH]; [reflexivity|].
  cbn [append ends_with_space]. destruct (r ++ " ") eqn:E; [|exact IH].
  destruct r; discriminate.
Qed.

Lemma double_space_not_single (a b : string) :
  single_spaced (a ++ "  " ++ b) = false.
Proof.
  induction a as [|c a IH].
  - cbn. reflexivity.
  - cbn [append single_spaced]. cbn [append] in IH. rewrite IH.
    apply andb_false_r.
Qed.

(** C4: for every input string, the output of [preprocessText] holds only
    lowercase ASCII letters and space characters, does not start with a
    space, does not end with a space, and has no two spaces in a row. *)
Theorem C4_preprocessText_shape (text : string) :
  (forall c, In c (list_ascii_of_string (preprocessText text)) ->
             is_lower c = true \/ c = " "%char)
  /\ (forall r, preprocessText text <> String " " r)
  /\ (forall r, preprocessText text <> r ++ " ")
  /\ (forall a b, preprocessText text <> a ++ "  " ++ b).
Proof.
  destruct (preprocessText_invariants text) as (H1 & H2 & H3).
  repeat split.
  - intros c. now apply single_spaced_chars.
  - intros r E. rewrite E in H2. discriminate.
  - intros r E. rewrite E, ends_with_space_app in H3. discriminate.
  - intros a b E. rewrite E, double_space_not_single in H1. discriminate.
Qed.

(** C3, as stated, does not hold: on ["Hi! @bob #great http://x.co"] the
    result of [preprocessText] is not ["hi great"], because the hashtag
    expression removes [#great] whole. *)
Lemma C3_not_hi_great :
  preprocessText "Hi! @bob #great http://x.co" <> "hi great".
Proof. vm_compute. discriminate. Qed.

(** C3, amended: [preprocessText] applied to
    ["Hi! @bob #great http://x.co"] returns ["hi"]; the mention, the
    hashtag and the URL are removed with their words. *)
Theorem C3_preprocessText_example :
  preprocessText "Hi! @bob #great http://x.co" = "hi".
Proof. vm_compute. reflexivity. Qed.

End NormalizerFacts.

(** ** Rounding of the confidence *)

Module RoundingFacts.
Import JsNumber SentimentService Shape.
Local Open Scope Z_scope.

Lemma digits2_pos_bound (m : positive) :
  Z.pos m < 2 ^ Z.pos (digits2_pos m).
Proof.
  induction m as [m IH|m IH|]; cbn [digits2_pos].
  - rewrite Pos2Z.inj_succ, Z.pow_succ_r by lia. lia.
  - rewrite Pos2Z.inj_succ, Z.pow_succ_r by lia. lia.
  - reflexivity.
Qed.

(** The mantissa of a binary64 number has at most 53 bits. *)
Lemma mantissa_bound (x : float) (s : bool) (m : positive) (e : Z) :
  Prim2SF x = S754_finite s m e -> Z.pos m < 2 ^ 53.
Proof.
  intros H. pose proof (Prim2SF_valid x) as V. rewrite H in V.
  cbn [SpecFloat.valid_binary] in V. unfold bounded, canonical_mantissa, fexp in V.
  apply andb_true_iff in V as [V _]. apply Z.eqb_eq in V.
  change prec with 53 in V.
  pose proof (digits2_pos_bound m) as D.
  assert (Z.pos (digits2_pos m) <= 53) by lia.
  eapply Z.lt_le_trans; [exact D|]. apply Z.pow_le_mono_r; lia.
Qed.

Lemma SFltb_zero (s : bool) (m : positive) (e : Z) :
  SFltb (S754_zero false) (S754_finite s m e) = true -> s = false.
Proof. unfold SFltb. cbn [SFcompare]. now destruct s. Qed.

Lemma SFleb_positive (m M : positive) (e E : Z) :
  SFleb (S754_finite false m e) (S754_finite false M E) = true ->
  e < E \/ (e = E /\ (m <= M)%positive).
Proof.
  unfold SFleb. cbn [SFcompare].
  destruct (Z.compare_spec e E) as [->|Hlt|Hgt]; intros H.
  - right. split; [reflexivity|].
    rewrite Pos.compare_cont_spec in H. unfold Pos.switch_Eq in H.
    unfold Pos.le. intros C. rewrite C in H. discriminate H.
  - now left.
  - discriminate H.
Qed.

(** A positive binary64 number below or equal to [M * 2^E], where [M] has
    53 bits and [E < 0]: its exact value [m * 2^e] has [e < 0] and is at
    most [M * 2^E]. *)
Lemma positive_below (x y : float) (M : positive) (E : Z) :
  Prim2SF y = S754_finite false M E -> E < 0 -> 2 ^ 53 <= 2 * Z.pos M ->
  PrimFloat.ltb 0 x = true -> PrimFloat.leb x y = true ->
  exists m e,
    Prim2SF x = S754_finite false m e /\ e < 0
    /\ Z.pos m * 2 ^ (- E) <= Z.pos M * 2 ^ (- e).
Proof.
  intros Hy HE HM. rewrite ltb_spec, leb_spec, Hy.
  replace (Prim2SF 0) with (S754_zero false) by (vm_compute; reflexivity).
  destruct (Prim2SF x) as [s|s| |s m e] eqn:Ex.
  - discriminate.
  - destruct s; discriminate.
  - discriminate.
  - intros Hs H. apply SFltb_zero in Hs. subst s.
    pose proof (mantissa_bound x false m e Ex) as B.
    exists m, e. split; [reflexivity|].
    apply SFleb_positive in H as [Hlt|[-> Hle]].
    + split; [lia|].
      assert (Hp : 2 * 2 ^ (- E) <= 2 ^ (- e)).
      { rewrite <- Z.pow_succ_r by lia. apply Z.pow_le_mono_r; lia. }
      assert (0 < 2 ^ (- E)) by (apply Z.pow_pos_nonneg; lia).
      set (a := 2 ^ (- E)) in *. set (b := 2 ^ (- e)) in *.
      set (c := 2 ^ 53) in *. clearbody a b c. nia.
    + split; [lia|].
      assert (0 < 2 ^ (- E)) by (apply Z.pow_pos_nonneg; lia).
      apply Z.mul_le_mono_nonneg_r; [lia|]. now apply Pos2Z.pos_le_pos.
Qed.

Lemma Prim2SF_1000 :
  Prim2SF 1000 = S754_finite false 8796093022208000 (-43).
Proof. vm_compute. reflexivity. Qed.

Lemma mantissa_1000 : 2 ^ 53 <= 2 * Z.pos 8796093022208000.
Proof. vm_compute. discriminate. Qed.

Lemma value_1000 : Z.pos 8796093022208000 = 1000 * 2 ^ 43.
Proof. vm_compute. reflexivity. Qed.

(** A binary64 number [p] with [0 < p <= 1000]: its exact value is
    [m * 2^e] with [e < 0]. *)
Lemma between_0_and_1000 (p : float) :
  PrimFloat.ltb 0 p = true -> PrimFloat.leb p 1000 = true ->
  exists m e,
    Prim2SF p = S754_finite false m e /\ e < 0
    /\ Z.pos m <= 1000 * 2 ^ (- e).
Proof.
  intros H0 H1.
  destruct (positive_below p 1000 _ _ Prim2SF_1000 eq_refl mantissa_1000 H0 H1)
    as (m & e & E & He & B).
  exists m, e. split; [exact E|]. split; [exact He|].
  rewrite value_1000 in B.
  replace (- -43) with 43 in B by reflexivity.
  assert (0 < 2 ^ 43) by (apply Z.pow_pos_nonneg; lia).
  set (a := 2 ^ 43) in *. set (b := 2 ^ (- e)) in *. clearbody a b. nia.
Qed.

(** [Math.round] of a positive number with a negative exponent: the
    integer nearest to it, a half going upwards. *)
Lemma Math_round_positive (x : float) (m : positive) (e : Z) :
  Prim2SF x = S754_finite false m e -> e < 0 ->
  let n := (2 * Z.pos m + 2 ^ (- e)) / (2 * 2 ^ (- e)) in
  Math_round x = PrimFloat.of_uint63 (Uint63.of_Z n)
  /\ 0 <= n
  /\ (2 * n - 1) * 2 ^ (- e) <= 2 * Z.pos m < (2 * n + 1) * 2 ^ (- e).
Proof.
  intros H He n. unfold Math_round. rewrite H.
  destruct (Z.leb_spec 0 e); [lia|]. fold n.
  assert (Hd : 0 < 2 ^ (- e)) by (apply Z.pow_pos_nonneg; lia).
  assert (Hn : 0 <= n) by (apply Z.div_pos; lia).
  pose proof (Z.mul_div_le (2 * Z.pos m + 2 ^ (- e)) (2 * 2 ^ (- e)) ltac:(lia)) as L.
  pose proof (Z.mul_succ_div_gt (2 * Z.pos m + 2 ^ (- e)) (2 * 2 ^ (- e)) ltac:(lia)) as U.
  fold n in L, U.
  split; [|split; [exact Hn | nia]].
  destruct (Z.eqb_spec n 0) as [->|Hz]; [reflexivity|].
  destruct (Z.ltb_spec 0 n); [reflexivity | lia].
Qed.

(** The stored confidence of a score whose thousandfold lies in (0, 1000]:
    the quotient by 1000 of the integer nearest to the thousandfold. *)
Lemma round3_spec (score : float) :
  PrimFloat.ltb 0 (PrimFloat.mul score 1000) = true ->
  PrimFloat.leb (PrimFloat.mul score 1000) 1000 = true ->
  exists n : Z,
    0 <= n <= 1000
    /\ nearest_integer n (PrimFloat.mul score 1000)
    /\ round3 score
       = PrimFloat.div (PrimFloat.of_uint63 (Uint63.of_Z n)) 1000.
Proof.
  intros H0 H1.
  destruct (between_0_and_1000 _ H0 H1) as (m & e & E & He & B).
  destruct (Math_round_positive _ m e E He) as (R & Hn & Hb).
  cbn zeta in *. set (n := (2 * Z.pos m + 2 ^ (- e)) / (2 * 2 ^ (- e))) in *.
  exists n. split; [|split].
  - split; [exact Hn|].
    assert (Hd : 0 < 2 ^ (- e)) by (apply Z.pow_pos_nonneg; lia). nia.
  - unfold nearest_integer. rewrite E. cbn zeta.
    destruct (Z.leb_spec 0 e); [lia | exact Hb].
  - unfold round3. now rewrite R.
Qed.

End RoundingFacts.

(** ** The sentiment service *)

Module SentimentFacts.
Import JsString Normalizer JsNumber Effects SentimentService Shape Examples.
Import RoundingFacts.
Local Open Scope list_scope.

(** Unfolds the operations of the monad. *)
Ltac run :=
  unfold console_log, console_error;
  unfold bind, ret, throw, diverge, try_catch, emit, get_pipeline,
    set_pipeline, get_log;
  cbn [log sentimentPipeline fst snd].

Lemma subsequence_length {A : Type} (l1 l2 : list A) :
  subsequence l1 l2 -> (List.length l1 <= List.length l2)%nat.
Proof. induction 1; cbn; lia. Qed.

Lemma subsequence_trans {A : Type} (l1 l2 l3 : list A) :
  subsequence l1 l2 -> subsequence l2 l3 -> subsequence l1 l3.
Proof.
  intros H12 H23. revert l1 H12.
  induction H23 as [|x l2 l3 H IH|x l2 l3 H IH]; intros l1 H12.
  - exact H12.
  - apply sub_skip. auto.
  - inversion H12; subst; [apply sub_skip | apply sub_keep]; auto.
Qed.

Lemma record_from_more (handle : string) (evs1 evs2 : list event)
    (r : AnalyzedReview) :
  record_from handle evs2 r -> record_from handle (evs1 ++ evs2) r.
Proof.
  intros (H1 & H2 & first & H3 & H4).
  repeat split; auto. exists first. split; auto.
  apply in_or_app. now right.
Qed.

(** One review with a cleaned text: either the classifier answers and one
    record is appended, or it throws and nothing is. *)
Lemma analyze_one_spec (env : environment) (handle review : string)
    (results : list AnalyzedReview) (st : state) :
  let cleaned := preprocessText review in
  let text := slice0 512 cleaned in
  match pipe env (log st) handle text with
  | PipeReturns first =>
      analyze_one env handle review cleaned results st =
      (Returned
         (results ++
          [mkAnalyzedReview review cleaned
             (apply_threshold (map_label (label_of first)) (score_of first))
             (round3 (score_of first))]),
       State (log st ++ [Classify handle text (PipeReturns first)])
         (sentimentPipeline st))
  | PipeThrows e =>
      analyze_one env handle review cleaned results st =
      (Returned results,
       State (log st ++ [Classify handle text (PipeThrows e);
                         ConsoleError "Error analyzing review:" e])
         (sentimentPipeline st))
  end.
Proof.
  intros cleaned text. unfold analyze_one, call_pipe. fold cleaned text. run.
  destruct (pipe env (log st) handle text) as [e|first]; run.
  - now rewrite <- app_assoc.
  - reflexivity.
Qed.

(** The loop over the reviews always returns; it appends records, each
    built from an answer of the classifier, in the order of the reviews, and
    leaves the memoized pipeline alone. *)
Lemma analyze_loop_spec (env : environment) (handle : string)
    (reviews : list string) :
  forall (results : list AnalyzedReview) (st : state),
  exists (rs : list AnalyzedReview) (evs : list event),
    analyze_loop env handle reviews results st =
    (Returned (results ++ rs), State (log st ++ evs) (sentimentPipeline st))
    /\ Forall (record_from handle evs) rs
    /\ subsequence (map originalReview rs) reviews
    /\ classified evs =
       map (fun r => slice0 512 (preprocessText r))
         (filter (fun r => truthy (preprocessText r)) reviews)
    /\ List.length rs = List.length (answers evs)
    /\ calls evs = [] /\ loads evs = [].
Proof.
  induction reviews as [|review rest IH]; intros results st.
  - exists [], []. cbn. rewrite !app_nil_r. destruct st.
    repeat split; constructor.
  - cbn [analyze_loop filter].
    destruct (truthy (preprocessText review)) eqn:T; cbn [negb].
    + pose proof (analyze_one_spec env handle review results st) as H1.
      cbn zeta in H1. unfold bind at 1.
      destruct (pipe env (log st) handle (slice0 512 (preprocessText review)))
        as [e|first] eqn:P; rewrite H1; clear H1.
      * destruct (IH results
          (State (log st ++ [Classify handle (slice0 512 (preprocessText review)) (PipeThrows e);
                             ConsoleError "Error analyzing review:" e])
                 (sentimentPipeline st)))
          as (rs & evs & E & F & Sq & C & L & K & Ld).
        exists rs, ([Classify handle (slice0 512 (preprocessText review)) (PipeThrows e);
                     ConsoleError "Error analyzing review:" e] ++ evs).
        rewrite E. cbn [log sentimentPipeline]. rewrite <- app_assoc.
        repeat split; auto.
        -- eapply Forall_impl; [|exact F]. intros r Hr.
           now apply record_from_more.
        -- now apply sub_skip.
        -- cbn [classified app map]. now rewrite C.
      * set (rec := mkAnalyzedReview review (preprocessText review)
                      (apply_threshold (map_label (label_of first)) (score_of first))
                      (round3 (score_of first))).
        destruct (IH (results ++ [rec])
          (State (log st ++ [Classify handle (slice0 512 (preprocessText review)) (PipeReturns first)])
                 (sentimentPipeline st)))
          as (rs & evs & E & F & Sq & C & L & K & Ld).
        exists (rec :: rs),
          ([Classify handle (slice0 512 (preprocessText review)) (PipeReturns first)] ++ evs).
        rewrite E. cbn [log sentimentPipeline]. rewrite <- !app_assoc.
        repeat split; auto.
        -- constructor.
           ++ repeat split; auto. exists first. cbn. auto.
           ++ eapply Forall_impl; [|exact F]. intros r Hr.
              now apply record_from_more.
        -- cbn [map originalReview rec]. now apply sub_keep.
        -- cbn [classified app map]. now rewrite C.
        -- cbn [answers app List.length]. now rewrite L.
    + destruct (IH results st) as (rs & evs & E & F & Sq & C & L & K & Ld).
      exists rs, evs. repeat split; auto. now apply sub_skip.
Qed.

(** [initPipeline] with the pipeline already loaded: it is returned, and
    nothing happens. *)
Lemma initPipeline_loaded (env : environment) (st : state) (handle : string) :
  sentimentPipeline st = Some handle ->
  initPipeline env st = (Returned handle, st).
Proof. unfold initPipeline. run. now intros ->. Qed.

(** [initPipeline] returns the handle it leaves in the module variable, or
    throws; it calls neither the classifier nor the generative model. *)
Lemma initPipeline_spec (env : environment) (st : state) :
  exists evs,
    calls evs = [] /\ classified evs = [] /\
    ((exists handle,
        initPipeline env st =
        (Returned handle, State (log st ++ evs) (Some handle)))
     \/ (exists e,
        initPipeline env st =
        (Thrown e, State (log st ++ evs) None)
        /\ sentimentPipeline st = None)).
Proof.
  unfold initPipeline. run.
  destruct (sentimentPipeline st) as [h|] eqn:S.
  - exists []. repeat split. left. exists h. rewrite app_nil_r.
    destruct st; cbn in *; now subst.
  - unfold load_pipeline. run.
    destruct (pipeline env _ MODEL_3_CLASS) as [e|] eqn:P3; run.
    + rewrite <- !app_assoc. cbn [app].
      destruct (pipeline env _ MODEL_2_CLASS) as [e2|] eqn:P2; run;
        rewrite <- !app_assoc; cbn [app]; rewrite ?S.
      * eexists. split; [|split]; [| |right; exists e2; split; reflexivity];
          reflexivity.
      * eexists. split; [|split]; [| |left; eexists; reflexivity]; reflexivity.
    + rewrite <- !app_assoc. cbn [app].
      eexists. split; [|split]; [| |left; eexists; reflexivity]; reflexivity.
Qed.

(** C1: every record that [analyzeReviews] returns was built from an
    answer of the classifier for its (truncated) cleaned text.  Its
    confidence is computed from the returned score alone, whatever happens
    to the label: it is the score rounded to 3 decimals, that is, for a
    score whose thousandfold lies in (0, 1000], the integer nearest to the
    thousandfold (a half going upwards), divided by 1000.  When the mapped
    label is not neutral and the score is strictly below 0.80 the stored
    sentiment is neutral, and when the score is not below 0.80 the stored
    sentiment is the mapped label. *)
Theorem C1_threshold_policy (env : environment) (reviews : list string)
    (st st' : state) (results : list AnalyzedReview) :
  analyzeReviews env reviews st = (Returned results, st') ->
  forall r, In r results ->
  exists handle first,
    In (Classify handle (slice0 512 (cleanedText r)) (PipeReturns first))
       (log st')
    /\ confidence r = round3 (score_of first)
    /\ (PrimFloat.ltb 0 (PrimFloat.mul (score_of first) 1000) = true ->
        PrimFloat.leb (PrimFloat.mul (score_of first) 1000) 1000 = true ->
        exists n : Z,
          (0 <= n <= 1000)%Z
          /\ nearest_integer n (PrimFloat.mul (score_of first) 1000)
          /\ confidence r
             = PrimFloat.div (PrimFloat.of_uint63 (Uint63.of_Z n)) 1000)
    /\ (map_label (label_of first) <> Neutral ->
        PrimFloat.ltb (score_of first) 0.80 = true ->
        sentiment r = Neutral)
    /\ (PrimFloat.ltb (score_of first) 0.80 = false ->
        sentiment r = map_label (label_of first)).
Proof.
  unfold analyzeReviews. intros H r Hr.
  destruct (initPipeline_spec env st) as (evs0 & _ & _ & [[h E]|[e [E _]]]);
    unfold bind in H; rewrite E in H; [|discriminate].
  destruct (analyze_loop_spec env h reviews [] (State (log st ++ evs0) (Some h)))
    as (rs & evs & E2 & F & _).
  rewrite E2 in H. cbn [app log sentimentPipeline] in H.
  inversion H; subst; clear H.
  rewrite Forall_forall in F.
  destruct (F r Hr) as (_ & _ & first & Hin & Hs & Hc).
  exists h, first. cbn [log]. split; [|split; [|split; [|split]]].
  - apply in_or_app. now right.
  - exact Hc.
  - intros H0 H1. rewrite Hc. now apply round3_spec.
  - intros Hn Hlt. rewrite Hs. unfold apply_threshold, NEUTRAL_SCORE_THRESHOLD.
    rewrite Hlt. destruct (map_label (label_of first)); try reflexivity.
  - intros Hge. rewrite Hs. unfold apply_threshold, NEUTRAL_SCORE_THRESHOLD.
    rewrite Hge. now rewrite andb_false_r.
Qed.

(** The examples of C1: "Negative" with 0.55 is stored as neutral with
    confidence 0.55, "Positive" with 0.92 as positive with 0.92. *)
Lemma C1_threshold_policy_witness :
  fst (analyzeReviews two_answers ["Terrible!!"; "Great :)"] initial) =
  Returned
    [mkAnalyzedReview "Terrible!!" "terrible" Neutral 0.55%float;
     mkAnalyzedReview "Great :)" "great" Positive 0.92%float]
  /\ forall r,
       In r [mkAnalyzedReview "Terrible!!" "terrible" Neutral 0.55%float;
             mkAnalyzedReview "Great :)" "great" Positive 0.92%float] ->
       exists handle first,
         In (Classify handle (slice0 512 (cleanedText r)) (PipeReturns first))
            (log (snd (analyzeReviews two_answers ["Terrible!!"; "Great :)"]
                         initial)))
         /\ confidence r = round3 (score_of first)
         /\ (PrimFloat.ltb 0 (PrimFloat.mul (score_of first) 1000) = true ->
             PrimFloat.leb (PrimFloat.mul (score_of first) 1000) 1000 = true ->
             exists n : Z,
               (0 <= n <= 1000)%Z
               /\ nearest_integer n (PrimFloat.mul (score_of first) 1000)
               /\ confidence r
                  = PrimFloat.div (PrimFloat.of_uint63 (Uint63.of_Z n)) 1000)
         /\ (map_label (label_of first) <> Neutral ->
             PrimFloat.ltb (score_of first) 0.80 = true ->
             sentiment r = Neutral)
         /\ (PrimFloat.ltb (score_of first) 0.80 = false ->
             sentiment r = map_label (label_of first)).
Proof.
  split; [vm_compute; reflexivity|].
  apply (C1_threshold_policy two_answers ["Terrible!!"; "Great :)"] initial).
  vm_compute. reflexivity.
Defined.

End SentimentFacts.

(** ** [chunkArray] *)

Module ChunkFacts.
Import JsArray GeminiService Shape.
Local Open Scope list_scope.

Section Chunks.
Context {A : Type}.
Implicit Types (array : list A) (chunks : list (list A)).

Lemma firstn_firstn_skipn (a b : nat) (l : list A) :
  firstn a l ++ firstn b (skipn a l) = firstn (a + b) l.
Proof.
  revert l. induction a as [|a IH]; intros l; [reflexivity|].
  destruct l as [|x l]; cbn.
  - now rewrite firstn_nil.
  - now rewrite IH.
Qed.

(** [slice] between two indices inside the array. *)
Lemma slice_inside (i sz : nat) array :
  (i < List.length array)%nat ->
  slice (Z.of_nat i) (Z.of_nat i + Z.of_nat sz) array = firstn sz (skipn i array).
Proof.
  intros Hi. unfold slice.
  destruct (Z.ltb_spec (Z.of_nat i) 0); [lia|].
  destruct (Z.ltb_spec (Z.of_nat i + Z.of_nat sz) 0); [lia|].
  rewrite (Z.min_l (Z.of_nat i)) by lia. rewrite Nat2Z.id.
  destruct (Z.min_spec (Z.of_nat i + Z.of_nat sz) (Z.of_nat (List.length array)))
    as [[_ ->]|[Hle ->]].
  - f_equal. lia.
  - rewrite !firstn_all2; auto; rewrite length_skipn; lia.
Qed.

(** [slice(0, m)] for [m >= 0] is the first [m] elements. *)
Lemma slice_prefix (m : Z) array :
  (0 <= m)%Z -> slice 0 m array = firstn (Z.to_nat m) array.
Proof.
  intros Hm. unfold slice.
  destruct (Z.ltb_spec 0 0); [lia|].
  destruct (Z.ltb_spec m 0); [lia|].
  rewrite (Z.min_l 0) by lia. cbn [Z.to_nat skipn]. rewrite Z.sub_0_r.
  destruct (Z.min_spec m (Z.of_nat (List.length array))) as [[_ ->]|[Hle ->]].
  - reflexivity.
  - rewrite Nat2Z.id. rewrite !firstn_all2; auto; lia.
Qed.

Lemma pieces_spec (sz : nat) array (k : nat) :
  (1 <= sz)%nat ->
  (k * sz < List.length array)%nat <-> (k < pieces sz array)%nat.
Proof.
  intros Hsz. unfold pieces.
  set (n := List.length array).
  pose proof (Nat.div_mod_eq (n + sz - 1) sz) as D.
  pose proof (Nat.mod_upper_bound (n + sz - 1) sz ltac:(lia)) as R.
  set (q := ((n + sz - 1) / sz)%nat) in *.
  set (r := ((n + sz - 1) mod sz)%nat) in *.
  split; intros H; nia.
Qed.

Lemma concat_pieces (sz : nat) array (m k : nat) :
  List.concat (map (piece sz array) (seq k m)) = firstn (m * sz) (skipn (k * sz) array).
Proof.
  revert k. induction m as [|m IH]; intros k; [reflexivity|].
  cbn [seq map List.concat]. rewrite IH. unfold piece.
  replace (S k * sz)%nat with (sz + k * sz)%nat by lia.
  rewrite <- skipn_skipn. rewrite firstn_firstn_skipn. f_equal.
Qed.

(** The loop for a size of at least 1, started at a multiple of the size
    with enough fuel: it adds the remaining pieces. *)
Lemma chunkArray_loop_pieces (sz : nat) array (fuel : nat) :
  (1 <= sz)%nat ->
  forall (k : nat) chunks,
    (pieces sz array - k <= fuel)%nat ->
    chunkArray_loop fuel array (Z.of_nat sz) (Z.of_nat (k * sz)) chunks =
    Some (chunks ++ map (piece sz array) (seq k (pieces sz array - k))).
Proof.
  intros Hsz. induction fuel as [|fuel IH]; intros k chunks Hf.
  - cbn [chunkArray_loop].
    destruct (Z.ltb_spec (Z.of_nat (k * sz)) (Z.of_nat (List.length array))) as [H|H].
    + apply Nat2Z.inj_lt, pieces_spec in H; [lia|exact Hsz].
    + replace (pieces sz array - k)%nat with 0%nat by lia.
      cbn. now rewrite app_nil_r.
  - cbn [chunkArray_loop].
    destruct (Z.ltb_spec (Z.of_nat (k * sz)) (Z.of_nat (List.length array))) as [H|H].
    + apply Nat2Z.inj_lt in H. pose proof H as Hk.
      apply pieces_spec in Hk; [|exact Hsz].
      replace (Z.of_nat (k * sz) + Z.of_nat sz)%Z with (Z.of_nat (S k * sz)) by lia.
      rewrite IH by lia.
      replace (Z.of_nat (S k * sz)) with (Z.of_nat (k * sz) + Z.of_nat sz)%Z by lia.
      rewrite slice_inside by exact H.
      replace (pieces sz array - k)%nat with (S (pieces sz array - S k)) by lia.
      cbn [seq map]. rewrite <- app_assoc. reflexivity.
    + assert (~ (k < pieces sz array)%nat).
      { intros Hk. apply pieces_spec in Hk; [lia|exact Hsz]. }
      replace (pieces sz array - k)%nat with 0%nat by lia.
      cbn. now rewrite app_nil_r.
Qed.

Lemma pieces_le_length (sz : nat) array :
  (1 <= sz)%nat -> (pieces sz array <= List.length array)%nat.
Proof.
  intros Hsz. unfold pieces.
  enough ((List.length array + sz - 1) / sz < S (List.length array))%nat by lia.
  apply Nat.Div0.div_lt_upper_bound. nia.
Qed.

(** [chunkArray] for a size of at least 1. *)
Lemma chunkArray_pieces (size : Z) array :
  (1 <= size)%Z ->
  chunkArray array size =
  Some (map (piece (Z.to_nat size) array) (seq 0 (pieces (Z.to_nat size) array))).
Proof.
  intros Hs. unfold chunkArray.
  pose proof (chunkArray_loop_pieces (Z.to_nat size) array (S (List.length array))
                ltac:(lia) 0 []) as H.
  rewrite Z2Nat.id in H by lia. cbn [Nat.mul Z.of_nat app] in H.
  rewrite Nat.sub_0_r in H. apply H.
  pose proof (pieces_le_length (Z.to_nat size) array ltac:(lia)). lia.
Qed.

(** More fuel does not change a result. *)
Lemma chunkArray_loop_more_fuel (fuel extra : nat) array (size i : Z) chunks r :
  chunkArray_loop fuel array size i chunks = Some r ->
  chunkArray_loop (fuel + extra) array size i chunks = Some r.
Proof.
  revert i chunks. induction fuel as [|fuel IH]; intros i chunks.
  - cbn [chunkArray_loop].
    destruct (i <? Z.of_nat (List.length array))%Z eqn:E; [discriminate|].
    intros H. destruct (0 + extra)%nat; cbn [chunkArray_loop]; now rewrite E.
  - cbn [chunkArray_loop Nat.add].
    destruct (i <? Z.of_nat (List.length array))%Z; [apply IH|auto].
Qed.

(** With a size of at most 0 the loop variable never passes the length of
    a non-empty array: the loop uses up any fuel. *)
Lemma chunkArray_loop_diverges (fuel : nat) array (size i : Z) chunks :
  array <> [] -> (size <= 0)%Z -> (i <= 0)%Z ->
  chunkArray_loop fuel array size i chunks = None.
Proof.
  intros Hne Hs. revert i chunks.
  assert (0 < Z.of_nat (List.length array))%Z as Hlen.
  { destruct array; [congruence|cbn [List.length]; lia]. }
  induction fuel as [|fuel IH]; intros i chunks Hi; cbn [chunkArray_loop];
    destruct (Z.ltb_spec i (Z.of_nat (List.length array))); try lia.
  - reflexivity.
  - apply IH. lia.
Qed.

(** The fuel of [chunkArray] is enough whenever any fuel is. *)
Lemma chunkArray_fuel_adequate (fuel : nat) array (size : Z) r :
  chunkArray_loop fuel array size 0 [] = Some r -> chunkArray array size = Some r.
Proof.
  intros H. destruct (Z.le_gt_cases 1 size) as [Hs|Hs].
  - pose proof (chunkArray_pieces size array Hs) as E. unfold chunkArray in *.
    pose proof (chunkArray_loop_more_fuel _ fuel _ _ _ _ _ E) as E'.
    apply (chunkArray_loop_more_fuel _ (S (List.length array))) in H.
    rewrite (Nat.add_comm fuel) in H. congruence.
  - destruct array as [|x array].
    + unfold chunkArray. destruct fuel; cbn in *; congruence.
    + rewrite chunkArray_loop_diverges in H; [discriminate| |lia|lia]. discriminate.
Qed.

End Chunks.

End ChunkFacts.

(** ** The Gemini service *)

Module GeminiFacts.
Import JsString JsArray Effects GeminiService Shape Examples.
Import SentimentFacts ChunkFacts.
Local Open Scope list_scope.

Lemma calls_app (a b : list event) : calls (a ++ b) = calls a ++ calls b.
Proof.
  induction a as [|[] a IH]; cbn [calls app]; try rewrite IH; reflexivity.
Qed.

Lemma generations_app (a b : list event) :
  generations (a ++ b) = generations a ++ generations b.
Proof.
  induction a as [|[] a IH]; cbn [generations app]; try rewrite IH; reflexivity.
Qed.

Lemma classified_app (a b : list event) :
  classified (a ++ b) = classified a ++ classified b.
Proof.
  induction a as [|[] a IH]; cbn [classified app]; try rewrite IH; reflexivity.
Qed.

Lemma loads_app (a b : list event) : loads (a ++ b) = loads a ++ loads b.
Proof.
  induction a as [|[] a IH]; cbn [loads app]; try rewrite IH; reflexivity.
Qed.

Lemma generate_spec (env : environment) (prompt : string) (st : state) :
  generate env prompt st =
  (match generateContent env (log st) prompt with
   | GenText text => Returned text
   | GenThrows e => Thrown e
   end,
   State (log st ++ [Generate prompt (generateContent env (log st) prompt)])
     (sentimentPipeline st)).
Proof.
  unfold generate. destruct (generateContent env (log st) prompt); reflexivity.
Qed.

(** The loop over the chunks always returns; it makes one call per chunk,
    in order, with a pause after each but the last, and pushes one entry
    per chunk. *)
Lemma chunk_loop_spec (env : environment) (total : nat)
    (rest : list (list string)) :
  forall (i : nat) (batchResults : list string) (st : state),
    total = (i + List.length rest)%nat ->
    exists (outs : list gen_outcome) (evs : list event),
      chunk_loop env total i rest batchResults st =
      (Returned (batchResults ++ mapi_from entry i outs),
       State (log st ++ evs) (sentimentPipeline st))
      /\ generations evs = combine (map chunk_prompt rest) outs
      /\ List.length outs = List.length rest
      /\ calls evs =
         between (CallSleep 1000)
           (map (fun chunk => CallGenerate (chunk_prompt chunk)) rest)
      /\ classified evs = [] /\ loads evs = [].
Proof.
  induction rest as [|chunk rest IH]; intros i batchResults st Ht.
  - exists [], []. cbn. rewrite !app_nil_r. destruct st. repeat split.
  - cbn [chunk_loop]. unfold sleep. run. rewrite generate_spec. cbn [log sentimentPipeline].
    set (st1 := log st ++ [Console _]).
    set (out := generateContent env st1 (chunk_prompt chunk)).
    assert (Hi : (i <? total - 1)%nat = negb (List.length rest =? 0)%nat).
    { cbn [List.length] in Ht. destruct rest; cbn [List.length negb Nat.eqb] in *.
      - apply Nat.ltb_ge. lia.
      - apply Nat.ltb_lt. lia. }
    rewrite Hi.
    assert (Hb : between (CallSleep 1000)
                   (map (fun chunk => CallGenerate (chunk_prompt chunk)) (chunk :: rest))
                 = CallGenerate (chunk_prompt chunk)
                   :: (if negb (List.length rest =? 0)%nat then [CallSleep 1000] else [])
                   ++ between (CallSleep 1000)
                        (map (fun chunk => CallGenerate (chunk_prompt chunk)) rest)).
    { destruct rest; reflexivity. }
    rewrite Hb. clear Hb Hi.
    clearbody out.
    assert (Hfin : forall b s (evs1 : list event),
              log s = log st ++ evs1 -> sentimentPipeline s = sentimentPipeline st ->
              b = batchResults ++ [entry i out] ->
              generations evs1 = [(chunk_prompt chunk, out)] ->
              calls evs1 = CallGenerate (chunk_prompt chunk)
                           :: (if negb (List.length rest =? 0)%nat
                               then [CallSleep 1000] else []) ->
              classified evs1 = [] -> loads evs1 = [] ->
              exists outs evs,
                chunk_loop env total (i + 1) rest b s =
                (Returned (batchResults ++ mapi_from entry i outs),
                 State (log st ++ evs) (sentimentPipeline st))
                /\ generations evs = combine (map chunk_prompt (chunk :: rest)) outs
                /\ List.length outs = List.length (chunk :: rest)
                /\ calls evs =
                   CallGenerate (chunk_prompt chunk)
                   :: (if negb (List.length rest =? 0)%nat
                       then [CallSleep 1000] else [])
                   ++ between (CallSleep 1000)
                        (map (fun chunk => CallGenerate (chunk_prompt chunk)) rest)
                /\ classified evs = [] /\ loads evs = []).
    { intros b s evs1 Hl Hp -> G1 K1 C1 L1.
      destruct (IH (i + 1)%nat (batchResults ++ [entry i out]) s
                  ltac:(cbn [List.length] in Ht; lia))
        as (outs & evs & E & G & L & K & C & Ld).
      exists (out :: outs), (evs1 ++ evs).
      rewrite E, Hl, Hp, <- !app_assoc. cbn [mapi_from app].
      rewrite Nat.add_1_r.
      rewrite generations_app, calls_app, classified_app, loads_app.
      rewrite G1, K1, C1, L1, G, K, C, Ld. repeat split. cbn [List.length]. now rewrite L. }
    destruct out as [text|e];
      destruct (negb (List.length rest =? 0)%nat); run;
      eapply Hfin; cbn [log sentimentPipeline entry batch_error];
      try reflexivity; subst st1; rewrite <- ?app_assoc; cbn [app]; reflexivity.
Qed.

(** [analyzeAndRecommend] with the key set and a chunking that ends: the
    chunk calls, then the summary call on the batch results; the result is
    the summary, or the batch results joined when the summary throws. *)
Lemma analyzeAndRecommend_spec (env : environment) (reviews : list string)
    (chunkSize : Z) (chunks : list (list string)) (st : state) :
  GEMINI_API_KEY env = true ->
  chunkArray reviews chunkSize = Some chunks ->
  exists (outs : list gen_outcome) (final : gen_outcome) (evs : list event),
    analyzeAndRecommend env reviews chunkSize st =
    (Returned (match final with
               | GenText text => text
               | GenThrows _ => join divider (batch_entries outs)
               end),
     State (log st ++ evs) (sentimentPipeline st))
    /\ List.length outs = List.length chunks
    /\ generations evs =
       combine (map chunk_prompt chunks) outs
       ++ [(final_prompt (batch_entries outs), final)]
    /\ calls evs =
       between (CallSleep 1000)
         (map (fun chunk => CallGenerate (chunk_prompt chunk)) chunks)
       ++ [CallGenerate (final_prompt (batch_entries outs))]
    /\ classified evs = [] /\ loads evs = [].
Proof.
  intros Hkey Hchunks. unfold analyzeAndRecommend.
  rewrite Hkey, Hchunks. cbn [negb].
  destruct (chunk_loop_spec env (List.length chunks) chunks 0 [] st eq_refl)
    as (outs & evs & E & G & L & K & C & Ld).
  unfold bind at 1. rewrite E. cbn [app]. fold (mapi entry outs).
  fold (batch_entries outs).
  run. rewrite generate_spec. cbn [log sentimentPipeline].
  set (final := generateContent env _ _).
  exists outs, final.
  destruct final as [text|e] eqn:F; run; rewrite <- !app_assoc; cbn [app];
    eexists; (split; [reflexivity|]);
    rewrite ?generations_app, ?calls_app, ?classified_app, ?loads_app;
    cbn [generations calls classified loads];
    rewrite G, K, C, Ld; repeat split; auto.
Qed.

Lemma nth_error_mapi_from {A B : Type} (f : nat -> A -> B) (l : list A) :
  forall (i j : nat),
    nth_error (mapi_from f i l) j = option_map (f (i + j)%nat) (nth_error l j).
Proof.
  induction l as [|x l IH]; intros i j; destruct j; cbn; auto.
  - now rewrite Nat.add_0_r.
  - rewrite IH. now rewrite Nat.add_succ_r.
Qed.

Lemma length_mapi_from {A B : Type} (f : nat -> A -> B) (l : list A) (i : nat) :
  List.length (mapi_from f i l) = List.length l.
Proof. revert i. induction l; intros i; cbn; auto. Qed.


(** C6: with the key set and a chunking that ends, every chunk gets its
    call, in chunk order, whatever the earlier calls did; the batch results
    that go into the summary prompt have one entry per chunk, in chunk
    order: the text of a call that answered, and for a call that threw the
    note that names the batch (counted from 1) and the message of the error. *)
Theorem C6_one_entry_per_chunk (env : environment) (reviews : list string)
    (chunkSize : Z)
    (chunks : list (list string)) (st : state) :
  GEMINI_API_KEY env = true ->
  chunkArray reviews chunkSize = Some chunks ->
  exists (outs : list gen_outcome) (final : gen_outcome) (evs : list event)
         (r : result string),
    analyzeAndRecommend env reviews chunkSize st =
    (r, State (log st ++ evs) (sentimentPipeline st))
    /\ generations evs =
       combine (map chunk_prompt chunks) outs
       ++ [(final_prompt (batch_entries outs), final)]
    /\ List.length outs = List.length chunks
    /\ List.length (batch_entries outs) = List.length chunks
    /\ (forall j e, nth_error outs j = Some (GenThrows e) ->
          nth_error (batch_entries outs) j =
          Some ("Error processing batch " ++ of_nat (j + 1) ++ ": " ++ message e)%string)
    /\ (forall j text, nth_error outs j = Some (GenText text) ->
          nth_error (batch_entries outs) j = Some text).
Proof.
  intros Hkey Hc.
  destruct (analyzeAndRecommend_spec env reviews chunkSize chunks st Hkey Hc)
    as (outs & final & evs & E & L & G & _).
  exists outs, final, evs. eexists. repeat split; eauto.
  - unfold batch_entries, mapi. now rewrite length_mapi_from.
  - intros j e Hj. unfold batch_entries, mapi.
    rewrite nth_error_mapi_from, Hj. reflexivity.
  - intros j text Hj. unfold batch_entries, mapi.
    rewrite nth_error_mapi_from, Hj. reflexivity.
Qed.

(** C7: with the key set and a chunking that ends, [analyzeAndRecommend]
    returns a string and does not throw: the text of the summary call, or,
    when that call throws, the batch results joined by a line of three
    dashes between blank lines. *)
Theorem C7_summary_failure_falls_back (env : environment)
    (reviews : list string) (chunkSize : Z)
    (chunks : list (list string)) (st : state) :
  GEMINI_API_KEY env = true ->
  chunkArray reviews chunkSize = Some chunks ->
  exists (outs : list gen_outcome) (final : gen_outcome) (evs : list event),
    List.length outs = List.length chunks
    /\ generations evs =
       combine (map chunk_prompt chunks) outs
       ++ [(final_prompt (batch_entries outs), final)]
    /\ analyzeAndRecommend env reviews chunkSize st =
       (Returned
          (match final with
           | GenText text => text
           | GenThrows _ =>
               join (nl ++ nl ++ "---" ++ nl ++ nl)%string (batch_entries outs)
           end),
        State (log st ++ evs) (sentimentPipeline st)).
Proof.
  intros Hkey Hc.
  destruct (analyzeAndRecommend_spec env reviews chunkSize chunks st Hkey Hc)
    as (outs & final & evs & E & L & G & _).
  exists outs, final, evs. repeat split; auto.
Qed.


(** The second of three chunk calls throws: the third is still made, and
    the summary is asked for. *)
Lemma C6_one_entry_per_chunk_witness :
  map snd (generations
             (log (snd (analyzeAndRecommend second_call_fails
                          ["a"; "b"; "c"]%string 1 initial)))) =
  [GenText "analysis 0"; GenThrows (Error "quota exceeded");
   GenText "analysis 2"; GenText "analysis 3"]
  /\ exists (outs : list gen_outcome) (final : gen_outcome)
            (evs : list event) (r : result string),
       analyzeAndRecommend second_call_fails ["a"; "b"; "c"]%string 1 initial =
       (r, State (log initial ++ evs) (sentimentPipeline initial))
       /\ generations evs =
          combine (map chunk_prompt [["a"]; ["b"]; ["c"]]%string) outs
          ++ [(final_prompt (batch_entries outs), final)]
       /\ List.length outs = 3%nat
       /\ List.length (batch_entries outs) = 3%nat
       /\ (forall j e, nth_error outs j = Some (GenThrows e) ->
             nth_error (batch_entries outs) j =
             Some ("Error processing batch " ++ of_nat (j + 1) ++ ": "
                   ++ message e)%string)
       /\ (forall j text, nth_error outs j = Some (GenText text) ->
             nth_error (batch_entries outs) j = Some text).
Proof.
  split; [vm_compute; reflexivity|].
  apply (C6_one_entry_per_chunk second_call_fails ["a"; "b"; "c"]%string 1
           [["a"]; ["b"]; ["c"]]%string initial);
    reflexivity.
Defined.

(** The summary call throws after two chunks: the two texts come back,
    joined by the divider. *)
Lemma C7_summary_failure_falls_back_witness :
  fst (analyzeAndRecommend summary_fails ["a"; "b"; "c"]%string 2 initial) =
  Returned ("analysis 0" ++ nl ++ nl ++ "---" ++ nl ++ nl ++ "analysis 1")%string
  /\ exists (outs : list gen_outcome) (final : gen_outcome) (evs : list event),
       List.length outs = 2%nat
       /\ generations evs =
          combine (map chunk_prompt [["a"; "b"]; ["c"]]%string) outs
          ++ [(final_prompt (batch_entries outs), final)]
       /\ analyzeAndRecommend summary_fails ["a"; "b"; "c"]%string 2 initial =
          (Returned
             (match final with
              | GenText text => text
              | GenThrows _ =>
                  join (nl ++ nl ++ "---" ++ nl ++ nl)%string (batch_entries outs)
              end),
           State (log initial ++ evs) (sentimentPipeline initial)).
Proof.
  split; [vm_compute; reflexivity|].
  apply (C7_summary_failure_falls_back summary_fails ["a"; "b"; "c"]%string 2
           [["a"; "b"]; ["c"]]%string initial);
    reflexivity.
Defined.

End GeminiFacts.

(** ** The server *)

Module ServerFacts.
Import JsString JsArray Normalizer Effects SentimentService GeminiService.
Import Server Shape Examples.
Import SentimentFacts ChunkFacts GeminiFacts.
Local Open Scope list_scope.

Lemma subsequence_filter {A : Type} (p : A -> bool) (l : list A) :
  subsequence (filter p l) l.
Proof.
  induction l as [|x l IH]; cbn [filter]; [apply sub_nil|].
  destruct (p x); [now apply sub_keep | now apply sub_skip].
Qed.

Lemma subsequence_map {A B : Type} (f : A -> B) (l1 l2 : list A) :
  subsequence l1 l2 -> subsequence (map f l1) (map f l2).
Proof.
  induction 1; cbn [map];
    [apply sub_nil | now apply sub_skip | now apply sub_keep].
Qed.

(** The extracted reviews are the cells that pass the filter. *)
Lemma extract_reviews_cells (data : list row) (col : string) :
  map Some (extract_reviews data col) =
  filter nonblank (map (fun r => get r col) data).
Proof.
  unfold extract_reviews.
  induction data as [|r data IH]; [reflexivity|].
  cbn [map filter]. destruct (nonblank (get r col)) eqn:N; [|exact IH].
  destruct (get r col) as [c|]; [|discriminate].
  cbn [flat_map app map]. now rewrite IH.
Qed.

Lemma get_table_column (h c : string) (other : row) :
  get ((h, c) :: other) h = Some c.
Proof. cbn [get]. now rewrite String.eqb_refl. Qed.

Lemma extract_reviews_table (h : string) (rows : list (string * row)) :
  extract_reviews (table h rows) h =
  flat_map (fun review => match review with Some r => [r] | None => [] end)
    (filter nonblank (map (fun r => Some (fst r)) rows)).
Proof.
  unfold extract_reviews, table. rewrite map_map.
  do 2 f_equal. apply map_ext. intros [c other]. apply get_table_column.
Qed.

Lemma find_review_column_none (headers : list string) :
  (forall h, In h headers -> toLowerCase h <> "review"%string) ->
  find_review_column headers = None.
Proof.
  intros H. unfold find_review_column.
  induction headers as [|h headers IH]; [reflexivity|].
  cbn [List.find]. destruct (String.eqb_spec (toLowerCase h) "review") as [E|E].
  - exfalso. apply (H h); [now left | exact E].
  - apply IH. intros k Hk. apply H. now right.
Qed.

Lemma find_review_column_table (h : string) (r : string * row)
    (rows : list (string * row)) :
  toLowerCase h = "review"%string ->
  find_review_column (Object_keys (hd [] (table h (r :: rows)))) = Some h.
Proof.
  intros Hh. cbn [table map hd Object_keys fst]. unfold find_review_column.
  cbn [List.find]. now rewrite Hh.
Qed.

(** The handler once the parse result has no error. *)
Lemma post_analyze_parsed (env : environment) (csvText : string)
    (rows : list row) (st : state) :
  Papa_parse env csvText = ParseResult rows [] ->
  post_analyze env (Some csvText) st =
  match find_review_column (Object_keys (hd [] rows)) with
  | None =>
      (Returned (Json 400 (MissingColumnBody MISSING_COLUMN
                             (Object_keys (hd [] rows)))), st)
  | Some col =>
      let reviews := extract_reviews rows col in
      if (List.length reviews =? 0)%nat
      then (Returned (Json 400 (ErrorBody "No valid reviews found in CSV")), st)
      else
        let st1 :=
          State (log st ++ [Console ("Analyzing " ++ of_nat (List.length reviews)
                                     ++ " reviews...")%string])
            (sentimentPipeline st) in
        match analyzeReviews env reviews st1 with
        | (Returned results, st') =>
            (Returned (Json 200 (AnalysisBody true (List.length reviews) results)),
             st')
        | (Thrown e, st') =>
            (Returned (Json 500 (FailureBody "Failed to analyze reviews" (message e))),
             State (log st' ++ [ConsoleError "Error analyzing reviews:" e])
               (sentimentPipeline st'))
        | (Diverged, st') => (Diverged, st')
        end
  end.
Proof.
  intros HP. unfold post_analyze. rewrite HP. cbn [errors data List.length Nat.ltb Nat.leb].
  destruct (find_review_column (Object_keys (hd [] rows))) as [col|]; [|reflexivity].
  cbn zeta.
  destruct (List.length (extract_reviews rows col) =? 0)%nat; [reflexivity|].
  run.
  destruct (analyzeReviews env (extract_reviews rows col) _) as [[results|e|] st'];
    reflexivity.
Qed.

(** C2, amended: of two uploads that differ only in the name of the review
    column, [h] in one and [review] in the other, the first is answered
    exactly as the second whenever [h] is [review] up to letter case; when
    [h] is [Reviews] (and no other column is named [review] up to case) the
    column is not found and the answer is the 400 that lists the columns. *)
Theorem C2_review_header_match (env : environment) (st : state) (h : string)
    (rows : list (string * row)) (csv csv' : string) :
  Papa_parse env csv = ParseResult (table h rows) [] ->
  Papa_parse env csv' = ParseResult (table "review" rows) [] ->
  (toLowerCase h = "review"%string ->
   post_analyze env (Some csv) st = post_analyze env (Some csv') st)
  /\ (h = "Reviews"%string -> rows <> [] ->
      (forall k, In k (Object_keys (snd (hd (""%string, []) rows))) ->
                 toLowerCase k <> "review"%string) ->
      post_analyze env (Some csv) st =
      (Returned
         (Json 400
            (MissingColumnBody
               ("CSV must contain a " ++ dq ++ "review" ++ dq
                ++ " column (case-insensitive)")%string
               ("Reviews"%string
                :: Object_keys (snd (hd (""%string, []) rows))))),
       st)).
Proof.
  intros HP HP'. split.
  - intros Hh.
    rewrite (post_analyze_parsed env csv _ st HP).
    rewrite (post_analyze_parsed env csv' _ st HP').
    destruct rows as [|r rows]; [reflexivity|].
    rewrite (find_review_column_table h r rows Hh).
    rewrite (find_review_column_table "review" r rows eq_refl).
    cbn zeta. now rewrite !extract_reviews_table.
  - intros -> Hne Hother.
    rewrite (post_analyze_parsed env csv _ st HP).
    destruct rows as [|[c other] rows]; [congruence|].
    cbn [table map hd Object_keys fst snd] in *.
    rewrite find_review_column_none; [reflexivity|].
    intros k [<-|Hk]; [vm_compute; discriminate | now apply Hother].
Qed.

(** C8: when [/api/analyze] answers with a result, [totalReviews] is the
    number of rows whose review cell passes the filter (present, not empty,
    not blank); the records are at most that many; their reviews are cells
    of the sheet in sheet order; and every record has a non-blank review
    whose normalized text, stored as [cleanedText], is not empty, so a row
    with an empty cell or with a cell that normalizes to nothing has no
    record. *)
Theorem C8_blank_rows_produce_no_record (env : environment) (csvText : string)
    (st st' : state)
    (n : nat) (results : list AnalyzedReview) :
  post_analyze env (Some csvText) st =
  (Returned (Json 200 (AnalysisBody true n results)), st') ->
  exists col,
    let cells := map (fun r => get r col) (data (Papa_parse env csvText)) in
    find_review_column (Object_keys (hd [] (data (Papa_parse env csvText))))
    = Some col
    /\ n = List.length (filter nonblank cells)
    /\ (List.length results <= n)%nat
    /\ subsequence (map (fun r => Some (originalReview r)) results) cells
    /\ (forall r, In r results ->
          nonblank (Some (originalReview r)) = true
          /\ cleanedText r = preprocessText (originalReview r)
          /\ cleanedText r <> ""%string).
Proof.
  intros H. unfold post_analyze in H. unfold try_catch in H.
  match type of H with
  | (match ?m st with _ => _ end) = _ => destruct (m st) as [[resp|e|] st1] eqn:Hm
  end; [|run; discriminate|discriminate].
  inversion H; subst; clear H. revert Hm.
  destruct (Papa_parse env csvText) as [rows errs]. cbn [errors data].
  destruct (0 <? List.length errs)%nat; [run; discriminate|].
  destruct (find_review_column (Object_keys (hd [] rows))) as [col|] eqn:F;
    [|run; discriminate].
  cbn zeta.
  destruct (List.length (extract_reviews rows col) =? 0)%nat; [run; discriminate|].
  unfold analyzeReviews. run.
  set (st0 := State _ _).
  destruct (initPipeline_spec env st0) as (evs0 & _ & _ & [[hd0 E]|[e [E _]]]);
    rewrite E; [|discriminate].
  destruct (analyze_loop_spec env hd0 (extract_reviews rows col) []
              (State (log st0 ++ evs0) (Some hd0)))
    as (rs & evs & E2 & Fr & Sq & _).
  rewrite E2. cbn [app]. intros Hm. inversion Hm; subst; clear Hm.
  exists col. cbn zeta.
  pose proof (extract_reviews_cells rows col) as Hcells.
  assert (Hlen : List.length (extract_reviews rows col)
                 = List.length (filter nonblank (map (fun r => get r col) rows))).
  { rewrite <- Hcells. now rewrite length_map. }
  assert (Hsub : subsequence (map (fun r => Some (originalReview r)) results)
                   (filter nonblank (map (fun r => get r col) rows))).
  { rewrite <- Hcells, <- (map_map originalReview Some).
    now apply subsequence_map. }
  split; [reflexivity|]. split; [exact Hlen|]. split; [|split].
  - apply subsequence_length in Sq. now rewrite length_map in Sq.
  - eapply subsequence_trans; [exact Hsub | apply subsequence_filter].
  - intros r Hr. split; [|split].
    + assert (Hin : In (Some (originalReview r))
                      (filter nonblank (map (fun r => get r col) rows))).
      { apply (in_map (fun r => Some (originalReview r))) in Hr.
        revert Hr. clear - Hsub. induction Hsub; cbn [In]; intuition. }
      apply filter_In in Hin. tauto.
    + rewrite Forall_forall in Fr. now destruct (Fr r Hr) as (? & _).
    + rewrite Forall_forall in Fr. destruct (Fr r Hr) as (_ & T & _).
      intros Z. rewrite Z in T. discriminate.
Qed.

(** C9: with [negativeReviews] the empty array the handler answers 200
    with [success: true], the fixed message and the fixed recommendations
    text, for any [maxReviews] and [chunkSize], and adds nothing to the
    event log: no call to the generative model, no pause. *)
Theorem C9_empty_array_short_circuit (env : environment)
    (maxReviews chunkSize : option Z) (st : state) :
  exists st',
    post_recommendations env
      (RecommendationsBody (Some []) maxReviews chunkSize) st =
    (Returned
       (Json 200
          (NoNegativesBody true "No negative reviews to analyze"
             "All reviews are positive! Keep up the great work! ðŸŽ‰")),
     st')
    /\ log st' = log st.
Proof. exists st. split; reflexivity. Qed.

(** The handler with a non-empty array: the reviews are cut to
    [maxReviews], logged, and handed with [chunkSize] to
    [analyzeAndRecommend]. *)
Lemma post_recommendations_forwards (env : environment)
    (negs : list string) (maxReviews chunkSize : option Z) (st : state) :
  negs <> [] ->
  let cut := slice 0 (default maxReviews 100%Z) negs in
  let st1 :=
    State (log st ++ [Console ("Generating recommendations for "
                               ++ of_nat (List.length cut)
                               ++ " negative reviews...")%string])
      (sentimentPipeline st) in
  post_recommendations env
    (RecommendationsBody (Some negs) maxReviews chunkSize) st =
  match analyzeAndRecommend env cut (default chunkSize 50%Z) st1 with
  | (Returned recommendations, st') =>
      (Returned (Json 200 (ReportBody true (List.length cut) recommendations)), st')
  | (Thrown e, st') =>
      (Returned (Json 500 (FailureBody "Failed to generate recommendations"
                             (message e))),
       State (log st' ++ [ConsoleError "Error generating recommendations:" e])
         (sentimentPipeline st'))
  | (Diverged, st') => (Diverged, st')
  end.
Proof.
  intros Hne cut st1. unfold post_recommendations.
  cbn [negativeReviews Server.maxReviews Server.chunkSize].
  destruct negs as [|x negs]; [congruence|]. cbn [List.length Nat.eqb].
  run. fold cut. fold st1.
  destruct (analyzeAndRecommend env cut (default chunkSize 50%Z) st1)
    as [[r|e|] st']; reflexivity.
Qed.

(** C10: for every array and every integer size of at least 1,
    [chunkArray] returns; the chunks are as many as the length divided by
    the size, rounded up, chunk [k] is the [size] elements from index
    [k * size] on (fewer at the end), and together they are the array.  For
    a non-empty array and a size of at most 0 the loop uses up any fuel:
    it never ends.  The handler hands the size of the request over as it
    is: with a non-empty (cut) array and a size of at most 0 it never
    answers. *)
Theorem C10_chunkArray_precondition :
  (forall (A : Type) (array : list A) (size : Z),
     (1 <= size)%Z ->
     exists chunks,
       chunkArray array size = Some chunks
       /\ Z.of_nat (List.length chunks)
          = ((Z.of_nat (List.length array) + size - 1) / size)%Z
       /\ List.concat chunks = array
       /\ forall k, (k < List.length chunks)%nat ->
            nth k chunks [] =
            firstn (Z.to_nat size) (skipn (k * Z.to_nat size) array))
  /\ (forall (A : Type) (array : list A) (size : Z) (fuel : nat),
        array <> [] -> (size <= 0)%Z ->
        chunkArray_loop fuel array size 0 [] = None)
  /\ (forall (env : environment) (negs : list string) (maxReviews : option Z)
             (size : Z) (st : state),
        GEMINI_API_KEY env = true ->
        slice 0 (default maxReviews 100%Z) negs <> [] ->
        (size <= 0)%Z ->
        fst (post_recommendations env
               (RecommendationsBody (Some negs) maxReviews (Some size)) st)
        = Diverged).
Proof.
  split; [|split].
  - intros A array size Hs. eexists. split; [now apply chunkArray_pieces|].
    set (sz := Z.to_nat size).
    assert (Hsz : (1 <= sz)%nat) by (unfold sz; lia).
    repeat split.
    + rewrite length_map, length_seq. unfold pieces.
      rewrite Nat2Z.inj_div. f_equal; unfold sz; lia.
    + rewrite (concat_pieces sz array (pieces sz array) 0).
      cbn [Nat.mul skipn]. apply firstn_all2.
      destruct (Nat.le_gt_cases (List.length array) (pieces sz array * sz)) as [H|H];
        [exact H|].
      apply pieces_spec in H; [lia|exact Hsz].
    + intros k Hk. rewrite length_map, length_seq in Hk.
      rewrite (nth_indep _ [] (piece sz array 0)) by now rewrite length_map, length_seq.
      rewrite map_nth, seq_nth by exact Hk. reflexivity.
  - intros A array size fuel Hne Hs.
    apply chunkArray_loop_diverges; auto. lia.
  - intros env negs maxReviews size st Hkey Hcut Hs.
    assert (Hne : negs <> []).
    { intros ->. apply Hcut. unfold slice. now rewrite skipn_nil, firstn_nil. }
    rewrite (post_recommendations_forwards env negs maxReviews (Some size) st Hne).
    cbn zeta. cbn [default]. unfold analyzeAndRecommend. rewrite Hkey. cbn [negb].
    unfold chunkArray.
    rewrite (chunkArray_loop_diverges _ _ size 0%Z [] Hcut Hs (Z.le_refl 0)).
    reflexivity.
Qed.

(** C2 as stated does not hold: the sheet with the column [Reviews] is
    answered with the 400 of a missing column, the same sheet with the column
    [review] with the analysis. *)
Lemma C2_Reviews_header_rejected :
  fst (post_analyze uploads (Some csv_Reviews) initial) =
  Returned (Json 400 (MissingColumnBody MISSING_COLUMN ["Reviews"; "id"]%string))
  /\ fst (post_analyze uploads (Some csv_review) initial) =
     Returned
       (Json 200
          (AnalysisBody true 3
             [mkAnalyzedReview "Great course" "great course" Positive 0.92%float;
              mkAnalyzedReview "Too fast" "too fast" Positive 0.92%float])).
Proof. split; vm_compute; reflexivity. Qed.

Lemma C2_review_header_match_witness :
  post_analyze uploads (Some csv_Reviews) initial =
  (Returned
     (Json 400
        (MissingColumnBody
           ("CSV must contain a " ++ dq ++ "review" ++ dq
            ++ " column (case-insensitive)")%string
           ["Reviews"; "id"]%string)),
   initial).
Proof.
  apply (C2_review_header_match uploads initial "Reviews" sheet
           csv_Reviews csv_review).
  - reflexivity.
  - reflexivity.
  - reflexivity.
  - discriminate.
  - intros k [<-|[]]. vm_compute. discriminate.
Defined.

(** The example sheet: four rows, one with an empty cell and one with
    punctuation only; three rows count, two records come back. *)
Lemma C8_blank_rows_produce_no_record_witness :
  fst (post_analyze uploads (Some csv_review) initial) =
  Returned
    (Json 200
       (AnalysisBody true 3
          [mkAnalyzedReview "Great course" "great course" Positive 0.92%float;
           mkAnalyzedReview "Too fast" "too fast" Positive 0.92%float]))
  /\ exists col,
       find_review_column
         (Object_keys (hd [] (data (Papa_parse uploads csv_review)))) = Some col
       /\ 3%nat =
          List.length
            (filter nonblank
               (map (fun r => get r col) (data (Papa_parse uploads csv_review))))
       /\ (2 <= 3)%nat.
Proof.
  split; [vm_compute; reflexivity|].
  destruct (C8_blank_rows_produce_no_record uploads csv_review initial
              (snd (post_analyze uploads (Some csv_review) initial)) 3
              [mkAnalyzedReview "Great course" "great course" Positive 0.92%float;
               mkAnalyzedReview "Too fast" "too fast" Positive 0.92%float])
    as (col & H1 & H2 & H3 & _).
  - vm_compute. reflexivity.
  - exists col. auto.
Defined.

Lemma C10_chunkArray_precondition_witness :
  (exists chunks,
     chunkArray [1; 2; 3; 4; 5]%nat 2 = Some chunks
     /\ Z.of_nat (List.length chunks) = ((Z.of_nat 5 + 2 - 1) / 2)%Z
     /\ List.concat chunks = [1; 2; 3; 4; 5]%nat
     /\ forall k, (k < List.length chunks)%nat ->
          nth k chunks [] = firstn 2 (skipn (k * 2) [1; 2; 3; 4; 5]%nat))
  /\ chunkArray_loop 1000 [1; 2; 3]%nat 0 0 [] = None
  /\ fst (post_recommendations counting_model
            (RecommendationsBody (Some ["bad"]%string) None (Some 0%Z)) initial)
     = Diverged.
Proof.
  destruct C10_chunkArray_precondition as (Ha & Hb & Hc).
  split; [|split].
  - apply (Ha nat [1; 2; 3; 4; 5]%nat 2%Z). lia.
  - apply Hb; [discriminate | lia].
  - apply Hc; [reflexivity | discriminate | lia].
Defined.

End ServerFacts.

(* ================================================================= *)
(** * Further properties *)

(** ** The text normalizer *)

Module NormalizerMore.
Import JsString Normalizer Shape NormalizerFacts.

Lemma string_forall_app (p : ascii -> bool) (a b : string) :
  string_forall p (a ++ b) = string_forall p a && string_forall p b.
Proof.
  induction a as [|c a IH]; [reflexivity|].
  cbn [append string_forall]. now rewrite IH, andb_assoc.
Qed.

(** A global replacement only drops characters and inserts the replacement:
    what holds of every character of both holds of the result. *)
Lemma replace_from_forall (p : ascii -> bool) (m : matcher) (rep : string)
    (s : string) :
  string_forall p rep = true -> string_forall p s = true ->
  forall skip, string_forall p (replace_from m rep skip s) = true.
Proof.
  intros Hrep. induction s as [|c s IH]; intros Hs skip; [reflexivity|].
  cbn [string_forall] in Hs. apply andb_true_iff in Hs as [Hc Hs].
  cbn [replace_from]. destruct skip as [|k]; [|now apply IH].
  destruct (m (String c s)) as [[|k]|].
  - cbn [string_forall]. now rewrite Hc, IH.
  - rewrite string_forall_app, Hrep. now apply IH.
  - cbn [string_forall]. now rewrite Hc, IH.
Qed.

Lemma toLowerCase_forall (p : ascii -> bool) (s : string) :
  string_forall (fun c => p (lower_char c)) s = string_forall p (toLowerCase s).
Proof.
  induction s as [|c s IH]; [reflexivity|].
  cbn [toLowerCase string_forall]. now rewrite IH.
Qed.

Lemma other_re_blanks (s : string) :
  string_forall (fun c => negb (is_lower c)) s = true ->
  string_forall is_space (replace_all other_re " " s) = true.
Proof.
  unfold replace_all. induction s as [|c s IH]; [reflexivity|].
  cbn [string_forall]. intros H. apply andb_true_iff in H as [Hc Hs].
  apply negb_true_iff in Hc.
  cbn [replace_from other_re one_of]. unfold is_not_letter_or_space.
  rewrite Hc. cbn [orb].
  destruct (is_space c) eqn:E; cbn [negb].
  - cbn [string_forall]. now rewrite E, IH.
  - change (" " ++ ?x) with (String " "%char x). cbn [string_forall].
    now rewrite IH.
Qed.

Lemma run_length_all (cls : ascii -> bool) (s : string) :
  string_forall cls s = true -> run_length cls s = String.length s.
Proof.
  induction s as [|c s IH]; [reflexivity|].
  cbn [string_forall run_length String.length]. intros H.
  apply andb_true_iff in H as [-> H]. now rewrite IH.
Qed.

Lemma replace_from_skip_all (m : matcher) (rep s : string) :
  replace_from m rep (String.length s) s = "".
Proof. induction s as [|c s IH]; [reflexivity|]. exact IH. Qed.

Lemma spaces_re_blanks (s : string) :
  string_forall is_space s = true ->
  replace_all spaces_re " " s = "" \/ replace_all spaces_re " " s = " ".
Proof.
  unfold replace_all. destruct s as [|c s]; [now left|].
  cbn [string_forall]. intros H. apply andb_true_iff in H as [Hc Hs].
  right. cbn [replace_from]. rewrite spaces_re_match, Hc.
  rewrite (run_length_all _ _ Hs), replace_from_skip_all. reflexivity.
Qed.

Lemma without_letters_blank (text : string) :
  string_forall (fun c => negb (is_lower (lower_char c))) text = true ->
  preprocessText text = "".
Proof.
  intros H. rewrite (toLowerCase_forall (fun c => negb (is_lower c))) in H.
  unfold preprocessText. cbn zeta.
  assert (H1 : string_forall (fun c => negb (is_lower c))
                 (replace_all tag_re "" (replace_all url_re "" (toLowerCase text)))
               = true).
  { unfold replace_all. apply replace_from_forall; [reflexivity|].
    apply replace_from_forall; [reflexivity | exact H]. }
  apply other_re_blanks in H1. apply spaces_re_blanks in H1.
  destruct H1 as [-> | ->]; reflexivity.
Qed.

Lemma string_forall_In (p : ascii -> bool) (s : string) :
  (forall c, In c (list_ascii_of_string s) -> p c = true) ->
  string_forall p s = true.
Proof.
  induction s as [|c s IH]; intros H; [reflexivity|].
  cbn [string_forall]. rewrite (H c) by now left.
  apply IH. intros d Hd. apply H. now right.
Qed.

(** X1: A text none of whose characters lower-cases to a letter of [a-z]
    (digits, punctuation, white space, the other characters whose
    lower-case form is no such letter) normalizes to the empty string. *)
Theorem preprocessText_without_letters (text : string) :
  (forall c, In c (list_ascii_of_string text) ->
             is_lower (lower_char c) = false) ->
  preprocessText text = "".
Proof.
  intros H. apply without_letters_blank, string_forall_In.
  intros c Hc. now rewrite (H c Hc).
Qed.

Lemma preprocessText_without_letters_witness :
  preprocessText "12:30 !!! (?)" = "".
Proof.
  apply preprocessText_without_letters.
  intros c H. cbn in H.
  repeat (destruct H as [<-|H]; [reflexivity|]). destruct H.
Defined.

End NormalizerMore.

(** ** The sentiment service *)

Module SentimentMore.
Import JsString Normalizer JsNumber Effects SentimentService Shape Examples.
Import SentimentFacts.
Local Open Scope list_scope.

(** Goes through the places of a load in a log that is known. *)
Ltac answered :=
  let H := fresh "H" in
  intros ? ? ? ? H;
  repeat match type of H with
         | _ :: _ = (?pre ++ _ :: _)%list =>
             destruct pre; cbn [app] in H;
             [ try discriminate H; injection H as <- <- _ | injection H as <- H ]
         | [] = (?pre ++ _ :: _)%list => destruct pre; discriminate H
         end;
  assumption.

(** X3: Whatever the loaders do, [initPipeline] from an empty module variable
    first loads the 3-class model; when that load succeeded it is the only
    load, and the 3-class model is stored and returned.  The 2-class model
    is loaded only after the load of the 3-class model has failed; when it
    succeeds it is stored and returned.  [initPipeline] throws only when
    both loads have failed, in this order; it throws the error of the
    second load and leaves the module variable empty.  Every load is
    recorded with the answer the loader gave. *)
Theorem initPipeline_fallback (env : environment) (st : state) :
  sentimentPipeline st = None ->
  exists evs,
    loads_as_answered env (log st) evs
    /\ ((initPipeline env st =
           (Returned MODEL_3_CLASS, State (log st ++ evs) (Some MODEL_3_CLASS))
         /\ load_results evs = [(MODEL_3_CLASS, None)])
        \/ (exists e3,
              initPipeline env st =
              (Returned MODEL_2_CLASS,
               State (log st ++ evs) (Some MODEL_2_CLASS))
              /\ load_results evs =
                 [(MODEL_3_CLASS, Some e3); (MODEL_2_CLASS, None)])
        \/ (exists e3 e,
              initPipeline env st = (Thrown e, State (log st ++ evs) None)
              /\ load_results evs =
                 [(MODEL_3_CLASS, Some e3); (MODEL_2_CLASS, Some e)])).
Proof.
  intros S. unfold initPipeline. run. rewrite S.
  unfold load_pipeline. run.
  destruct (pipeline env _ MODEL_3_CLASS) as [e|] eqn:P3; run.
  - rewrite <- !app_assoc. cbn [app].
    destruct (pipeline env _ MODEL_2_CLASS) as [e2|] eqn:P2; run;
      rewrite <- !app_assoc; cbn [app]; rewrite ?S; eexists; (split; [|
       first [ right; left; eexists; split; reflexivity
             | right; right; eexists; eexists; split; reflexivity ]]);
      answered.
  - rewrite <- !app_assoc. cbn [app]. eexists.
    split; [|left; split; reflexivity]. answered.
Qed.

(** X4: Once a run of [analyzeReviews] has returned, a later run loads
    nothing, cannot throw, and classifies with the same pipeline. *)
Theorem analyzeReviews_loads_once (env : environment)
    (reviews1 reviews2 : list string) (st st1 : state)
    (results1 : list AnalyzedReview) :
  analyzeReviews env reviews1 st = (Returned results1, st1) ->
  exists handle results2 evs,
    sentimentPipeline st1 = Some handle
    /\ analyzeReviews env reviews2 st1 =
       (Returned results2, State (log st1 ++ evs) (Some handle))
    /\ loads evs = []
    /\ Forall (record_from handle evs) results2.
Proof.
  unfold analyzeReviews. intros H.
  destruct (initPipeline_spec env st) as (evs0 & _ & _ & [[h E]|[e [E _]]]);
    unfold bind in H; rewrite E in H; [|discriminate].
  destruct (analyze_loop_spec env h reviews1 [] (State (log st ++ evs0) (Some h)))
    as (rs & evs & E2 & _).
  rewrite E2 in H. inversion H; subst; clear H. cbn [sentimentPipeline log].
  exists h. set (st1 := State ((log st ++ evs0) ++ evs) (Some h)).
  unfold bind. rewrite (initPipeline_loaded env st1 h eq_refl).
  destruct (analyze_loop_spec env h reviews2 [] st1)
    as (rs2 & evs2 & E3 & F & _ & _ & _ & _ & Ld).
  exists rs2, evs2. rewrite E3. cbn [app log sentimentPipeline]. auto.
Qed.

(** [analyzeReviews] with the pipeline loaded. *)
Lemma analyzeReviews_loaded (env : environment) (reviews : list string)
    (st : state) (handle : string) :
  sentimentPipeline st = Some handle ->
  exists results evs,
    analyzeReviews env reviews st =
    (Returned results, State (log st ++ evs) (Some handle))
    /\ Forall (record_from handle evs) results
    /\ subsequence (map originalReview results) reviews
    /\ classified evs =
       map (fun r => slice0 512 (preprocessText r))
         (filter (fun r => truthy (preprocessText r)) reviews)
    /\ List.length results = List.length (answers evs)
    /\ calls evs = [] /\ loads evs = [].
Proof.
  intros S. unfold analyzeReviews, bind.
  rewrite (initPipeline_loaded env st handle S).
  destruct (analyze_loop_spec env handle reviews [] st)
    as (rs & evs & E & F & Sq & C & L & K & Ld).
  exists rs, evs. rewrite E, S. cbn [app]. auto 10.
Qed.

(** X5: With the pipeline loaded, [analyzeReviews] returns; the classifier is
    called once for each review whose normalized text is not empty, in the
    order of the reviews, on the first 512 characters of that text; there
    are as many records as answers, and no other capability is used. *)
Theorem analyzeReviews_calls (env : environment) (reviews : list string)
    (st : state) (handle : string) :
  sentimentPipeline st = Some handle ->
  exists results evs,
    analyzeReviews env reviews st =
    (Returned results, State (log st ++ evs) (Some handle))
    /\ classified evs =
       map (fun r => slice0 512 (preprocessText r))
         (filter (fun r => truthy (preprocessText r)) reviews)
    /\ List.length results = List.length (answers evs)
    /\ calls evs = [] /\ loads evs = [].
Proof.
  intros S.
  destruct (analyzeReviews_loaded env reviews st handle S)
    as (rs & evs & E & _ & _ & C & L & K & Ld).
  exists rs, evs. auto.
Qed.

Lemma substring_0_length (n : nat) (s : string) :
  String.length (substring 0 n s) = Nat.min n (String.length s).
Proof.
  revert s. induction n as [|n IH]; intros [|c s]; cbn; auto.
Qed.

Lemma substring_0_prefix (n : nat) (s : string) :
  prefix (substring 0 n s) s = true.
Proof.
  revert s. induction n as [|n IH]; intros [|c s]; cbn; auto.
  destruct (ascii_dec c c); [apply IH | congruence].
Qed.

Lemma substring_0_all (n : nat) (s : string) :
  String.length s <= n -> substring 0 n s = s.
Proof.
  revert s. induction n as [|n IH]; intros [|c s]; cbn; auto; try lia.
  intros H. f_equal. apply IH. lia.
Qed.

(** X6: Every text that reaches the classifier has at most 512 characters and
    starts the normalized text of one of the reviews; a normalized text of
    at most 512 characters is passed whole. *)
Theorem classified_texts_truncated (env : environment) (reviews : list string)
    (st : state) (handle : string) :
  sentimentPipeline st = Some handle ->
  exists evs,
    snd (analyzeReviews env reviews st) = State (log st ++ evs) (Some handle)
    /\ forall t, In t (classified evs) ->
         String.length t <= 512
         /\ exists review,
              In review reviews
              /\ prefix t (preprocessText review) = true
              /\ (String.length (preprocessText review) <= 512 ->
                  t = preprocessText review).
Proof.
  intros S.
  destruct (analyzeReviews_loaded env reviews st handle S)
    as (rs & evs & E & _ & _ & C & _).
  exists evs. rewrite E. split; [reflexivity|].
  intros t Ht. rewrite C in Ht. apply in_map_iff in Ht as (review & <- & Hin).
  apply filter_In in Hin as [Hin _]. unfold slice0. split.
  - rewrite substring_0_length. lia.
  - exists review. split; [exact Hin|]. split.
    + apply substring_0_prefix.
    + apply substring_0_all.
Qed.

(** X7: The converse of the threshold: a record is stored as negative or
    positive only if the classifier's score is not below 0.80 and its
    label, in lower case, contains [neg], respectively [pos] without [neg]
    and [neu]. *)
Theorem polar_only_when_confident (env : environment) (reviews : list string)
    (st st' : state) (results : list AnalyzedReview) :
  analyzeReviews env reviews st = (Returned results, st') ->
  forall r, In r results -> sentiment r <> Neutral ->
  exists handle first,
    In (Classify handle (slice0 512 (cleanedText r)) (PipeReturns first))
       (log st')
    /\ PrimFloat.ltb (score_of first) 0.80 = false
    /\ (sentiment r = Negative -> includes (label_of first) "neg" = true)
    /\ (sentiment r = Positive ->
        includes (label_of first) "pos" = true
        /\ includes (label_of first) "neg" = false
        /\ includes (label_of first) "neu" = false).
Proof.
  unfold analyzeReviews. intros H r Hr Hpol.
  destruct (initPipeline_spec env st) as (evs0 & _ & _ & [[h E]|[e [E _]]]);
    unfold bind in H; rewrite E in H; [|discriminate].
  destruct (analyze_loop_spec env h reviews [] (State (log st ++ evs0) (Some h)))
    as (rs & evs & E2 & F & _).
  rewrite E2 in H. cbn [app log sentimentPipeline] in H.
  inversion H; subst; clear H.
  rewrite Forall_forall in F.
  destruct (F r Hr) as (_ & _ & first & Hin & Hs & _).
  exists h, first. cbn [log]. split; [apply in_or_app; now right|].
  revert Hs Hpol. unfold apply_threshold, map_label, NEUTRAL_SCORE_THRESHOLD.
  destruct (includes (label_of first) "neg");
    [|destruct (includes (label_of first) "neu");
      [|destruct (includes (label_of first) "pos")]];
    cbn [Sentiment_eqb negb andb];
    destruct (PrimFloat.ltb (score_of first) 0.8); intros -> Hpol;
    try congruence; repeat split; congruence.
Qed.

(** X8: An answer without a score, or without a first element, is stored as
    neutral with confidence 0, whatever its label. *)
Theorem missing_score_is_neutral (env : environment)
    (handle review : string) (results : list AnalyzedReview) (st : state)
    (first : option prediction) :
  pipe env (log st) handle (slice0 512 (preprocessText review))
  = PipeReturns first ->
  (first = None \/ exists l, first = Some (Prediction l None)) ->
  fst (analyze_one env handle review (preprocessText review) results st) =
  Returned (results ++ [mkAnalyzedReview review (preprocessText review)
                          Neutral 0%float]).
Proof.
  intros P Hf.
  pose proof (analyze_one_spec env handle review results st) as H.
  cbn zeta in H. rewrite P in H. rewrite H. cbn [fst].
  assert (Hs : score_of first = 0%float).
  { destruct Hf as [->|[l ->]]; reflexivity. }
  rewrite Hs. do 3 f_equal.
  destruct (map_label (label_of first)); reflexivity.
Qed.

(** Reviews count: with a classifier that always answers, the records
    are exactly the reviews whose normalized text is not empty, in order. *)
Lemma analyze_loop_all_answered (env : environment) (handle : string)
    (reviews : list string) :
  (forall evs text, exists first, pipe env evs handle text = PipeReturns first) ->
  forall results st,
    exists rs st',
      analyze_loop env handle reviews results st = (Returned (results ++ rs), st')
      /\ map originalReview rs
         = filter (fun r => truthy (preprocessText r)) reviews.
Proof.
  intros Hp. induction reviews as [|review rest IH]; intros results st.
  - exists [], st. cbn. now rewrite app_nil_r.
  - cbn [analyze_loop filter].
    destruct (truthy (preprocessText review)) eqn:T; cbn [negb].
    + pose proof (analyze_one_spec env handle review results st) as H1.
      cbn zeta in H1. unfold bind at 1.
      destruct (Hp (log st) (slice0 512 (preprocessText review))) as [first P].
      rewrite P in H1. rewrite H1.
      match goal with
      | |- context [analyze_loop env handle rest ?b ?s] =>
          destruct (IH b s) as (rs & st' & E & M)
      end.
      eexists (_ :: rs), st'. rewrite E, <- app_assoc. cbn [app map originalReview].
      now rewrite M.
    + apply IH.
Qed.

(** With a classifier that always throws, the loop still returns, with no
    record added and one logged failure per review that had a text. *)
Lemma analyze_loop_all_failed (env : environment) (handle : string)
    (reviews : list string) :
  (forall evs text, exists e, pipe env evs handle text = PipeThrows e) ->
  forall results st,
    exists evs,
      analyze_loop env handle reviews results st =
      (Returned results, State (log st ++ evs) (sentimentPipeline st))
      /\ List.length (failures evs)
         = List.length (filter (fun r => truthy (preprocessText r)) reviews).
Proof.
  intros Hp. induction reviews as [|review rest IH]; intros results st.
  - exists []. cbn. rewrite app_nil_r. now destruct st.
  - cbn [analyze_loop filter].
    destruct (truthy (preprocessText review)) eqn:T; cbn [negb].
    + pose proof (analyze_one_spec env handle review results st) as H1.
      cbn zeta in H1. unfold bind at 1.
      destruct (Hp (log st) (slice0 512 (preprocessText review))) as [e P].
      rewrite P in H1. rewrite H1.
      match goal with
      | |- context [analyze_loop env handle rest ?b ?s] =>
          destruct (IH b s) as (evs & E & M)
      end.
      eexists (_ ++ evs). rewrite E. cbn [log sentimentPipeline].
      rewrite <- app_assoc. split; [reflexivity|].
      cbn [app failures List.length]. now rewrite M.
    + apply IH.
Qed.

(** X9: with the pipeline loaded and a classifier that always answers, the
    records are exactly the reviews whose normalized text is not empty, in
    the order of the reviews. *)
Theorem analyzeReviews_all_answered (env : environment) (reviews : list string)
    (st : state) (handle : string) :
  sentimentPipeline st = Some handle ->
  (forall evs text, exists first, pipe env evs handle text = PipeReturns first) ->
  exists results,
    fst (analyzeReviews env reviews st) = Returned results
    /\ map originalReview results
       = filter (fun r => truthy (preprocessText r)) reviews.
Proof.
  intros S Hp. unfold analyzeReviews, bind.
  rewrite (initPipeline_loaded env st handle S).
  destruct (analyze_loop_all_answered env handle reviews Hp [] st)
    as (rs & st' & E & M).
  exists rs. now rewrite E.
Qed.

(** X10: with the pipeline loaded and a classifier that throws on every
    text, [analyzeReviews] still returns, with no record, and one failure was
    met per review that had a text: a failing review never fails the batch. *)
Theorem analyzeReviews_all_failed (env : environment) (reviews : list string)
    (st : state) (handle : string) :
  sentimentPipeline st = Some handle ->
  (forall evs text, exists e, pipe env evs handle text = PipeThrows e) ->
  exists evs,
    analyzeReviews env reviews st =
    (Returned [], State (log st ++ evs) (Some handle))
    /\ List.length (failures evs)
       = List.length (filter (fun r => truthy (preprocessText r)) reviews).
Proof.
  intros S Hp. unfold analyzeReviews, bind.
  rewrite (initPipeline_loaded env st handle S).
  destruct (analyze_loop_all_failed env handle reviews Hp [] st) as (evs & E & M).
  exists evs. rewrite E, S. auto.
Qed.

Lemma initPipeline_fallback_witness :
  fst (initPipeline fallback_only initial) = Returned MODEL_2_CLASS
  /\ exists evs,
       loads_as_answered fallback_only (log initial) evs
       /\ ((initPipeline fallback_only initial =
              (Returned MODEL_3_CLASS,
               State (log initial ++ evs) (Some MODEL_3_CLASS))
            /\ load_results evs = [(MODEL_3_CLASS, None)])
           \/ (exists e3,
                 initPipeline fallback_only initial =
                 (Returned MODEL_2_CLASS,
                  State (log initial ++ evs) (Some MODEL_2_CLASS))
                 /\ load_results evs =
                    [(MODEL_3_CLASS, Some e3); (MODEL_2_CLASS, None)])
           \/ (exists e3 e,
                 initPipeline fallback_only initial =
                 (Thrown e, State (log initial ++ evs) None)
                 /\ load_results evs =
                    [(MODEL_3_CLASS, Some e3); (MODEL_2_CLASS, Some e)])).
Proof.
  split; [vm_compute; reflexivity|].
  apply (initPipeline_fallback fallback_only initial). reflexivity.
Defined.

Lemma analyzeReviews_loads_once_witness :
  exists handle results2 evs,
    sentimentPipeline
      (snd (analyzeReviews two_answers ["Terrible!!"%string] initial))
    = Some handle
    /\ analyzeReviews two_answers ["Great :)"%string]
         (snd (analyzeReviews two_answers ["Terrible!!"%string] initial)) =
       (Returned results2,
        State
          (log (snd (analyzeReviews two_answers ["Terrible!!"%string] initial))
           ++ evs)
          (Some handle))
    /\ loads evs = []
    /\ Forall (record_from handle evs) results2.
Proof.
  apply (analyzeReviews_loads_once two_answers ["Terrible!!"%string]
           ["Great :)"%string] initial _
           [mkAnalyzedReview "Terrible!!" "terrible" Neutral 0.55%float]).
  vm_compute. reflexivity.
Defined.

Lemma analyzeReviews_calls_witness :
  exists results evs,
    analyzeReviews two_answers ["Terrible!!"; "!!!"; "Great :)"]%string loaded =
    (Returned results, State (log loaded ++ evs) (Some MODEL_3_CLASS))
    /\ classified evs = ["terrible"; "great"]%string
    /\ List.length results = List.length (answers evs)
    /\ calls evs = [] /\ loads evs = [].
Proof.
  apply (analyzeReviews_calls two_answers
           ["Terrible!!"; "!!!"; "Great :)"]%string loaded MODEL_3_CLASS).
  reflexivity.
Defined.

Lemma classified_texts_truncated_witness :
  exists evs,
    snd (analyzeReviews two_answers ["Terrible!!"; "Great :)"]%string loaded)
    = State (log loaded ++ evs) (Some MODEL_3_CLASS)
    /\ forall t, In t (classified evs) ->
         String.length t <= 512
         /\ exists review,
              In review ["Terrible!!"; "Great :)"]%string
              /\ prefix t (preprocessText review) = true
              /\ (String.length (preprocessText review) <= 512 ->
                  t = preprocessText review).
Proof.
  apply (classified_texts_truncated two_answers
           ["Terrible!!"; "Great :)"]%string loaded MODEL_3_CLASS).
  reflexivity.
Defined.

Lemma polar_only_when_confident_witness :
  exists handle first,
    In (Classify handle "great" (PipeReturns first))
       (log (snd (analyzeReviews two_answers ["Terrible!!"; "Great :)"]%string
                    initial)))
    /\ PrimFloat.ltb (score_of first) 0.80 = false
    /\ (Positive = Negative -> includes (label_of first) "neg" = true)
    /\ (Positive = Positive ->
        includes (label_of first) "pos" = true
        /\ includes (label_of first) "neg" = false
        /\ includes (label_of first) "neu" = false).
Proof.
  apply (polar_only_when_confident two_answers
           ["Terrible!!"; "Great :)"]%string initial _
           [mkAnalyzedReview "Terrible!!" "terrible" Neutral 0.55%float;
            mkAnalyzedReview "Great :)" "great" Positive 0.92%float]
           ltac:(vm_compute; reflexivity)
           (mkAnalyzedReview "Great :)" "great" Positive 0.92%float)).
  - right. left. reflexivity.
  - discriminate.
Defined.

Lemma missing_score_is_neutral_witness :
  fst (analyze_one no_score MODEL_3_CLASS "Bad!" (preprocessText "Bad!") []
         loaded) =
  Returned [mkAnalyzedReview "Bad!" "bad" Neutral 0%float].
Proof.
  apply (missing_score_is_neutral no_score MODEL_3_CLASS "Bad!" [] loaded
           (Some (Prediction (Some "Negative"%string) None))).
  - reflexivity.
  - right. eexists. reflexivity.
Defined.

Lemma analyzeReviews_all_answered_witness :
  exists results,
    fst (analyzeReviews uploads ["Great course"; "!!!"; "Too fast"]%string loaded)
    = Returned results
    /\ map originalReview results = ["Great course"; "Too fast"]%string.
Proof.
  apply (analyzeReviews_all_answered uploads
           ["Great course"; "!!!"; "Too fast"]%string loaded MODEL_3_CLASS).
  - reflexivity.
  - intros evs text. eexists. reflexivity.
Defined.

Lemma analyzeReviews_all_failed_witness :
  exists evs,
    analyzeReviews classifier_down ["Great course"; "!!!"; "Too fast"]%string
      loaded =
    (Returned [], State (log loaded ++ evs) (Some MODEL_3_CLASS))
    /\ List.length (failures evs) = 2.
Proof.
  apply (analyzeReviews_all_failed classifier_down
           ["Great course"; "!!!"; "Too fast"]%string loaded MODEL_3_CLASS).
  - reflexivity.
  - intros evs text. eexists. reflexivity.
Defined.

End SentimentMore.

(** ** The Gemini service *)

Module GeminiMore.
Import JsString JsArray Effects GeminiService Shape Examples.
Import SentimentFacts ChunkFacts GeminiFacts.
Local Open Scope list_scope.




Lemma prefix_append (a b : string) : prefix a (a ++ b)%string = true.
Proof.
  induction a as [|c a IH]; cbn; [now destruct b|].
  destruct (ascii_dec c c); [exact IH | congruence].
Qed.

Lemma includes_here (a b : string) : includes (a ++ b)%string a = true.
Proof.
  destruct (a ++ b)%string eqn:E; cbn [includes]; rewrite <- E;
    now rewrite prefix_append.
Qed.

Lemma includes_later (a s sub : string) :
  includes s sub = true -> includes (a ++ s)%string sub = true.
Proof.
  intros H. induction a as [|c a IH]; [exact H|].
  cbn [append includes]. rewrite IH. apply orb_true_r.
Qed.

Lemma prefix_app_r (a s t : string) :
  prefix a s = true -> prefix a (s ++ t)%string = true.
Proof.
  revert s. induction a as [|c a IH]; intros s H;
    [now destruct (s ++ t)%string|].
  destruct s as [|d s]; [discriminate|]. cbn [append prefix] in *.
  destruct (ascii_dec c d); [now apply IH | discriminate].
Qed.

Lemma includes_app_r (s t sub : string) :
  includes s sub = true -> includes (s ++ t)%string sub = true.
Proof.
  induction s as [|c s IH]; cbn [append includes].
  - rewrite orb_false_r. intros H. destruct sub; [|discriminate].
    now destruct t.
  - intros H. apply orb_true_iff in H as [H|H]; apply orb_true_iff.
    + left. now apply (prefix_app_r sub (String c s) t).
    + right. now apply IH.
Qed.

Lemma includes_self (a : string) : includes a a = true.
Proof.
  assert (H : prefix a a = true).
  { induction a as [|c a IH]; cbn; [reflexivity|].
    destruct (ascii_dec c c); [exact IH | congruence]. }
  destruct a; cbn [includes]; now rewrite H.
Qed.

Lemma includes_join_mapi (f : nat -> string -> string) (l : list string) :
  forall (i j : nat) (x : string),
    nth_error l j = Some x ->
    includes (join nl (mapi_from f i l)) (f (i + j)%nat x) = true.
Proof.
  induction l as [|y l IH]; intros i j x Hj; [now destruct j|].
  cbn [mapi_from join]. destruct j as [|j]; cbn [nth_error] in Hj.
  - inversion Hj; subst. rewrite Nat.add_0_r.
    destruct (mapi_from f (S i) l) eqn:E.
    + apply includes_self.
    + apply includes_here.
  - specialize (IH (S i) j x Hj). rewrite Nat.add_succ_r.
    cbn [Nat.add] in IH.
    destruct (mapi_from f (S i) l) eqn:E;
      [destruct l; [destruct j|]; discriminate|].
    apply includes_later, includes_later. exact IH.
Qed.

(** X14: The summary prompt names every batch: for each batch result it holds
    the heading with the number of the batch, counted from 1, followed by
    the result itself, a note of failure included. *)
Theorem final_prompt_names_every_batch (batchResults : list string)
    (j : nat) (result : string) :
  nth_error batchResults j = Some result ->
  includes (final_prompt batchResults)
    (nl ++ "### Batch " ++ of_nat (j + 1) ++ " Analysis:" ++ nl ++ result)%string
  = true.
Proof.
  intros Hj. unfold final_prompt, mapi.
  apply includes_later, includes_later, includes_later, includes_later.
  pose proof (includes_join_mapi
                (fun idx result =>
                   (nl ++ "### Batch " ++ of_nat (idx + 1) ++ " Analysis:"
                    ++ nl ++ result)%string)
                batchResults 0 j result Hj) as H.
  cbn [Nat.add] in H. now apply includes_app_r.
Qed.




Lemma final_prompt_names_every_batch_witness :
  includes
    (final_prompt ["ok"; "Error processing batch 2: quota exceeded"]%string)
    (nl ++ "### Batch 2 Analysis:" ++ nl
     ++ "Error processing batch 2: quota exceeded")%string
  = true.
Proof.
  apply (final_prompt_names_every_batch
           ["ok"; "Error processing batch 2: quota exceeded"]%string 1).
  reflexivity.
Defined.

End GeminiMore.

(** ** The upload handler *)

Module ServerMore.
Import JsString JsArray Normalizer Effects SentimentService GeminiService.
Import Server Shape Examples.
Import NormalizerFacts SentimentFacts ChunkFacts GeminiFacts ServerFacts.
Import NormalizerMore SentimentMore GeminiMore.
Local Open Scope list_scope.

(** What [analyzeReviews] does to the state, whatever it returns. *)
Lemma analyzeReviews_effects (env : environment) (reviews : list string)
    (st : state) :
  exists evs,
    calls evs = []
    /\ ((exists results handle,
           analyzeReviews env reviews st =
           (Returned results, State (log st ++ evs) (Some handle)))
        \/ (exists e,
           analyzeReviews env reviews st = (Thrown e, State (log st ++ evs) None)
           /\ classified evs = [])).
Proof.
  unfold analyzeReviews, bind.
  destruct (initPipeline_spec env st) as (evs0 & K0 & C0 & [[h E]|[e [E _]]]);
    rewrite E.
  - destruct (analyze_loop_spec env h reviews [] (State (log st ++ evs0) (Some h)))
      as (rs & evs & E2 & _ & _ & _ & _ & K & _).
    exists (evs0 ++ evs). rewrite calls_app, K0, K. split; [reflexivity|].
    left. exists rs, h. rewrite E2. cbn [app log sentimentPipeline].
    now rewrite app_assoc.
  - exists evs0. split; [exact K0|]. right. exists e. auto.
Qed.

(** X15: [/api/analyze] always answers, with a JSON body and one of the
    statuses 200, 400 and 500; it never calls the generative model and
    never pauses. *)
Theorem post_analyze_always_answers (env : environment) (file : option string)
    (st : state) :
  exists status b evs pipeline,
    post_analyze env file st =
    (Returned (Json status b), State (log st ++ evs) pipeline)
    /\ (status = 200 \/ status = 400 \/ status = 500)%nat
    /\ calls evs = [].
Proof.
  assert (Hst : forall s : state, s = State (log s ++ []) (sentimentPipeline s)).
  { intros [l p]. cbn. now rewrite app_nil_r. }
  destruct file as [csvText|].
  2:{ exists 400%nat, (ErrorBody "No file uploaded"), [], (sentimentPipeline st).
      split; [|auto]. unfold post_analyze. run. now rewrite <- Hst. }
  unfold post_analyze. run.
  destruct (0 <? List.length (errors (Papa_parse env csvText)))%nat.
  { do 2 eexists. exists [], (sentimentPipeline st). rewrite <- Hst. auto. }
  destruct (find_review_column _) as [col|].
  2:{ do 2 eexists. exists [], (sentimentPipeline st). rewrite <- Hst. auto. }
  destruct (List.length _ =? 0)%nat.
  { do 2 eexists. exists [], (sentimentPipeline st). rewrite <- Hst. auto. }
  set (reviews := extract_reviews _ col).
  set (st1 := State _ _).
  destruct (analyzeReviews_effects env reviews st1)
    as (evs & K & [(rs & h & E)|(e & E & _)]); rewrite E; subst st1;
    cbn [log sentimentPipeline]; rewrite <- ?app_assoc.
  - do 4 eexists. split; [reflexivity|]. split; [auto|].
    rewrite calls_app, K. reflexivity.
  - do 4 eexists. split; [reflexivity|]. split; [auto|].
    rewrite !calls_app, K. reflexivity.
Qed.

(** X16: A 400 from [/api/analyze] is decided before anything is done: the
    state is as before, so no model was loaded and nothing classified. *)
Theorem post_analyze_rejection_has_no_effect (env : environment)
    (file : option string) (st st' : state) (b : body) :
  post_analyze env file st = (Returned (Json 400 b), st') -> st' = st.
Proof.
  destruct file as [csvText|]; unfold post_analyze; run.
  2:{ intros H. now inversion H. }
  destruct (0 <? List.length (errors (Papa_parse env csvText)))%nat.
  { intros H. now inversion H. }
  destruct (find_review_column _) as [col|]; [|intros H; now inversion H].
  destruct (List.length _ =? 0)%nat; [intros H; now inversion H|].
  destruct (analyzeReviews env _ _) as [[rs|e|] st1]; intros H; inversion H.
Qed.

(** X17: When no model can be loaded the upload is answered 500 with the
    message of the loader's error, and nothing was classified. *)
Theorem post_analyze_load_failure (env : environment) (csvText : string)
    (rows : list row) (col : string) (st : state) (e : error) :
  Papa_parse env csvText = ParseResult rows [] ->
  find_review_column (Object_keys (hd [] rows)) = Some col ->
  extract_reviews rows col <> [] ->
  sentimentPipeline st = None ->
  (forall evs model, pipeline env evs model = Some e) ->
  exists evs,
    post_analyze env (Some csvText) st =
    (Returned (Json 500 (FailureBody "Failed to analyze reviews" (message e))),
     State (log st ++ evs) None)
    /\ classified evs = []
    /\ loads evs = [MODEL_3_CLASS; MODEL_2_CLASS].
Proof.
  intros HP HF Hne S Hload.
  rewrite (post_analyze_parsed env csvText rows st HP), HF. cbn zeta.
  destruct (extract_reviews rows col) as [|r reviews] eqn:R; [congruence|].
  cbn [List.length Nat.eqb]. clear Hne.
  unfold analyzeReviews, bind, initPipeline. run. rewrite S.
  unfold load_pipeline. run. rewrite Hload. cbv beta iota zeta.
  cbn [log sentimentPipeline]. rewrite Hload. cbv beta iota zeta.
  cbn [log sentimentPipeline message].
  rewrite <- !app_assoc. cbn [app]. eexists. split; [reflexivity|].
  split; reflexivity.
Qed.

(** X18: An upload in which no review has a letter is still answered 200: the
    reviews are counted, none is classified, and the results are empty. *)
Theorem post_analyze_without_letters (env : environment) (csvText : string)
    (rows : list row) (col handle : string) (st : state) :
  Papa_parse env csvText = ParseResult rows [] ->
  find_review_column (Object_keys (hd [] rows)) = Some col ->
  extract_reviews rows col <> [] ->
  (forall r, In r (extract_reviews rows col) ->
     string_forall (fun c => negb (is_lower (lower_char c))) r = true) ->
  sentimentPipeline st = Some handle ->
  exists evs,
    post_analyze env (Some csvText) st =
    (Returned
       (Json 200 (AnalysisBody true (List.length (extract_reviews rows col)) [])),
     State (log st ++ evs) (Some handle))
    /\ classified evs = [].
Proof.
  intros HP HF Hne Hall S.
  rewrite (post_analyze_parsed env csvText rows st HP), HF. cbn zeta.
  destruct (List.length (extract_reviews rows col) =? 0)%nat eqn:L.
  { apply Nat.eqb_eq, length_zero_iff_nil in L. congruence. }
  set (st1 := State _ _).
  destruct (analyzeReviews_loaded env (extract_reviews rows col) st1 handle S)
    as (rs & evs & E & _ & _ & C & Ln & _).
  rewrite E.
  assert (Hf : filter (fun r => truthy (preprocessText r)) (extract_reviews rows col)
               = []).
  { clear - Hall. induction (extract_reviews rows col) as [|r l IH]; [reflexivity|].
    cbn [filter]. rewrite (without_letters_blank r) by (apply Hall; now left).
    cbn [truthy]. apply IH. intros r' Hr'. apply Hall. now right. }
  rewrite Hf in C. cbn [map] in C.
  assert (Hrs : rs = []).
  { destruct rs; [reflexivity|]. exfalso.
    assert (List.length (answers evs) <= List.length (classified evs))%nat.
    { clear. induction evs as [|[| | |? ? []| |] evs IH]; cbn; lia. }
    rewrite C in H. cbn in *. lia. }
  subst rs. subst st1. cbn [log]. rewrite <- app_assoc.
  eexists. split; [reflexivity|]. rewrite classified_app, C. reflexivity.
Qed.

Lemma post_analyze_rejection_has_no_effect_witness :
  snd (post_analyze uploads (Some csv_Reviews) initial) = initial.
Proof.
  apply (post_analyze_rejection_has_no_effect uploads (Some csv_Reviews)
           initial _ (MissingColumnBody MISSING_COLUMN ["Reviews"; "id"]%string)).
  vm_compute. reflexivity.
Defined.

Lemma post_analyze_load_failure_witness :
  exists evs,
    post_analyze no_model (Some csv_review) initial =
    (Returned (Json 500 (FailureBody "Failed to analyze reviews" "network down")),
     State (log initial ++ evs) None)
    /\ classified evs = []
    /\ loads evs = [MODEL_3_CLASS; MODEL_2_CLASS].
Proof.
  apply (post_analyze_load_failure no_model csv_review (table "review" sheet)
           "review" initial (Error "network down")).
  - reflexivity.
  - reflexivity.
  - vm_compute. discriminate.
  - reflexivity.
  - intros evs model. reflexivity.
Defined.

Lemma post_analyze_without_letters_witness :
  exists evs,
    post_analyze marks_upload (Some csv_marks) loaded =
    (Returned (Json 200 (AnalysisBody true 2 [])),
     State (log loaded ++ evs) (Some MODEL_3_CLASS))
    /\ classified evs = [].
Proof.
  apply (post_analyze_without_letters marks_upload csv_marks
           (table "review" [("!!!", [("id", "1")]); ("42", [("id", "2")])]%string)
           "review" MODEL_3_CLASS loaded).
  - reflexivity.
  - reflexivity.
  - vm_compute. discriminate.
  - intros r H. vm_compute in H. destruct H as [<-|[<-|[]]]; reflexivity.
  - reflexivity.
Defined.

End ServerMore.

(** ** The recommendations handler *)

Module RecommendationsMore.
Import JsString JsArray Normalizer Effects SentimentService GeminiService.
Import Server Shape Examples.
Import NormalizerFacts SentimentFacts ChunkFacts GeminiFacts ServerFacts.
Local Open Scope list_scope.



(** X20: Without the key nothing is asked of the generative model, whatever
    the size is: the answer is 500 with the message of the missing key. *)
Theorem post_recommendations_without_key (env : environment)
    (negs : list string) (maxR sizeR : option Z) (st : state) :
  GEMINI_API_KEY env = false -> negs <> [] ->
  exists evs,
    post_recommendations env (RecommendationsBody (Some negs) maxR sizeR) st =
    (Returned
       (Json 500
          (FailureBody "Failed to generate recommendations"
             "GEMINI_API_KEY not configured in environment variables")),
     State (log st ++ evs) (sentimentPipeline st))
    /\ calls evs = [].
Proof.
  intros Hkey Hne.
  rewrite (post_recommendations_forwards env negs maxR sizeR st Hne).
  cbn zeta. unfold analyzeAndRecommend. rewrite Hkey. cbn [negb]. run.
  rewrite <- app_assoc. eexists. split; reflexivity.
Qed.


(** X22: A cut that leaves nothing ([maxReviews] 0, or negative beyond the
    length) does not take the short cut of the empty array: the handler
    still asks the model for the summary of no batch, whatever the size is,
    and reports zero analyzed reviews. *)
Theorem post_recommendations_cut_to_nothing (env : environment)
    (negs : list string) (maxR sizeR : option Z) (st : state) :
  GEMINI_API_KEY env = true -> negs <> [] ->
  slice 0 (default maxR 100%Z) negs = [] ->
  exists text evs st',
    post_recommendations env (RecommendationsBody (Some negs) maxR sizeR) st =
    (Returned (Json 200 (ReportBody true 0 text)), st')
    /\ log st' = log st ++ evs
    /\ calls evs = [CallGenerate (final_prompt [])].
Proof.
  intros Hkey Hne Hcut.
  rewrite (post_recommendations_forwards env negs maxR sizeR st Hne).
  cbn zeta. rewrite Hcut. set (st1 := State _ _).
  destruct (analyzeAndRecommend_spec env [] (default sizeR 50%Z) [] st1 Hkey eq_refl)
    as (outs & final & evs & E & L & _ & K & _).
  destruct outs; [|discriminate].
  rewrite E. subst st1. cbn [log sentimentPipeline List.length].
  rewrite <- app_assoc. eexists _, _, _.
  split; [reflexivity|]. split; [reflexivity|].
  rewrite calls_app, K. reflexivity.
Qed.

(** X23: A 400 from [/api/recommendations] means that [negativeReviews] was
    missing or not an array, and nothing was done. *)
Theorem post_recommendations_rejection (env : environment)
    (req : recommendations_body) (st st' : state) (b : body) :
  post_recommendations env req st = (Returned (Json 400 b), st') ->
  negativeReviews req = None /\ st' = st
  /\ b = ErrorBody "Invalid request: negativeReviews array required".
Proof.
  destruct req as [[negs|] maxR sizeR].
  2:{ unfold post_recommendations. cbn [negativeReviews]. run.
      intros H. inversion H. auto. }
  destruct negs as [|x negs].
  { unfold post_recommendations. cbn [negativeReviews List.length Nat.eqb]. run.
    intros H. inversion H. }
  rewrite (post_recommendations_forwards env (x :: negs) maxR sizeR st)
    by discriminate.
  cbn zeta. destruct (analyzeAndRecommend _ _ _ _) as [[r|e|] s]; intros H;
    inversion H.
Qed.

Lemma trimStart_blank (s : string) :
  string_forall is_space s = true -> trimStart s = ""%string.
Proof.
  induction s as [|c s IH]; [reflexivity|]. cbn [string_forall trimStart].
  intros H. apply andb_true_iff in H as [-> H]. now apply IH.
Qed.

Lemma trim_not_blank (s : string) :
  string_forall is_space s = false -> trim s <> ""%string.
Proof.
  unfold trim. induction s as [|c s IH]; [discriminate|].
  cbn [string_forall trimStart]. destruct (is_space c) eqn:E.
  - cbn [andb]. exact IH.
  - intros _. cbn [trimEnd]. destruct (trimEnd s); [rewrite E|]; discriminate.
Qed.

(** X24: The filter of the reviews keeps a cell exactly when it holds a
    character that is not white space. *)
Theorem nonblank_iff (cell : string) :
  nonblank (Some cell) = true <->
  exists c, In c (list_ascii_of_string cell) /\ is_space c = false.
Proof.
  assert (Hall : string_forall is_space cell = false <->
                 exists c, In c (list_ascii_of_string cell) /\ is_space c = false).
  { induction cell as [|d cell IH]; cbn [string_forall list_ascii_of_string In].
    - split; [discriminate | intros (c & [] & _)].
    - destruct (is_space d) eqn:E; cbn [andb].
      + rewrite IH. split; intros (c & Hc & Hs); exists c; [tauto|].
        destruct Hc as [<-|Hc]; [congruence | tauto].
      + split; [|reflexivity]. intros _. exists d. tauto. }
  rewrite <- Hall. unfold nonblank.
  destruct (string_forall is_space cell) eqn:B.
  - rewrite (proj2 (String.eqb_eq _ _)); [|unfold trim; now rewrite trimStart_blank].
    rewrite andb_false_r. split; discriminate.
  - destruct cell as [|d cell]; [discriminate|]. cbn [truthy andb].
    pose proof (trim_not_blank _ B) as T.
    apply String.eqb_neq in T. rewrite T. split; reflexivity.
Qed.

Lemma post_recommendations_without_key_witness :
  exists evs,
    post_recommendations no_key
      (RecommendationsBody (Some ["bad"%string]) None (Some 0%Z)) initial =
    (Returned
       (Json 500
          (FailureBody "Failed to generate recommendations"
             "GEMINI_API_KEY not configured in environment variables")),
     State (log initial ++ evs) (sentimentPipeline initial))
    /\ calls evs = [].
Proof.
  apply (post_recommendations_without_key no_key ["bad"%string] None
           (Some 0%Z) initial).
  - reflexivity.
  - discriminate.
Defined.


Lemma post_recommendations_cut_to_nothing_witness :
  exists text evs st',
    post_recommendations counting_model
      (RecommendationsBody (Some ["a"%string]) (Some 0%Z) (Some 0%Z)) initial =
    (Returned (Json 200 (ReportBody true 0 text)), st')
    /\ log st' = log initial ++ evs
    /\ calls evs = [CallGenerate (final_prompt [])].
Proof.
  apply (post_recommendations_cut_to_nothing counting_model ["a"%string]
           (Some 0%Z) (Some 0%Z) initial).
  - reflexivity.
  - discriminate.
  - reflexivity.
Defined.

Lemma post_recommendations_rejection_witness :
  negativeReviews (RecommendationsBody None (Some 5%Z) None) = None
  /\ initial = initial
  /\ ErrorBody "Invalid request: negativeReviews array required"
     = ErrorBody "Invalid request: negativeReviews array required".
Proof.
  apply (post_recommendations_rejection counting_model
           (RecommendationsBody None (Some 5%Z) None) initial initial).
  reflexivity.
Defined.

End RecommendationsMore.

(** ** The pages *)

Module FrontendFacts.
Import JsString JsArray Normalizer Effects SentimentService GeminiService.
Import Server Shape Examples.
Import SentimentFacts ChunkFacts GeminiFacts ServerFacts.
Local Open Scope list_scope.

(** X25: The three counts of the results page add up to the total: the service
    stores no other sentiment than the three that are counted. *)
Theorem stats_add_up (results : list AnalyzedReview) :
  let s := Frontend.compute_stats results in
  (Frontend.positive s + Frontend.negative s + Frontend.neutral s
   = Frontend.total s)%nat
  /\ Frontend.total s = List.length results.
Proof.
  cbn zeta. unfold Frontend.compute_stats.
  cbn [Frontend.positive Frontend.negative Frontend.neutral Frontend.total].
  split; [|reflexivity].
  induction results as [|r results IH]; [reflexivity|].
  assert (Hr : forall s,
            List.length (filter (Frontend.sentiment_is s) (r :: results))
            = ((if Frontend.sentiment_is s r then 1 else 0)
               + List.length (filter (Frontend.sentiment_is s) results))%nat).
  { intros s. cbn [filter]. now destruct (Frontend.sentiment_is s r). }
  rewrite !Hr. cbn [List.length]. unfold Frontend.sentiment_is at 1 3 5.
  destruct (sentiment r); vm_compute (String.eqb _ _); cbv iota; lia.
Qed.

Lemma insert_perm (a : AnalyzedReview) (l : list AnalyzedReview) :
  Permutation (Frontend.insert a l) (a :: l).
Proof.
  induction l as [|b l IH]; cbn [Frontend.insert]; [apply Permutation_refl|].
  destruct (PrimFloat.ltb (confidence a) (confidence b)).
  - eapply Permutation_trans; [apply perm_skip, IH | apply perm_swap].
  - apply Permutation_refl.
Qed.

Lemma sort_perm (l : list AnalyzedReview) :
  Permutation (Frontend.sort_by_confidence l) l.
Proof.
  induction l as [|a l IH]; cbn; [apply perm_nil|].
  eapply Permutation_trans; [apply insert_perm | now apply perm_skip].
Qed.

(** X26: The reviews sent for recommendations are the cleaned texts of the
    negative records, each once, in some order; there are as many as the
    results page counts negative records. *)
Theorem negativeReviews_of_negative_records (results : list AnalyzedReview) :
  Permutation (Frontend.negativeReviews_of results)
    (map cleanedText (filter (Frontend.sentiment_is "negative") results))
  /\ List.length (Frontend.negativeReviews_of results)
     = Frontend.negative (Frontend.compute_stats results).
Proof.
  assert (P : Permutation (Frontend.negativeReviews_of results)
                (map cleanedText
                   (filter (Frontend.sentiment_is "negative") results))).
  { unfold Frontend.negativeReviews_of. apply Permutation_map, sort_perm. }
  split; [exact P|].
  rewrite (Permutation_length P), length_map. reflexivity.
Qed.

(** X27: A request that the recommendations page sends is answered 200 when the
    key is set: its size is 50, so the chunking ends; at most 100 reviews
    are analyzed, in at most two chunk calls and one summary call. *)
Theorem frontend_request_is_answered (env : environment)
    (results : list AnalyzedReview) (req : recommendations_body) (st : state) :
  GEMINI_API_KEY env = true ->
  Frontend.generateRecommendations results = Some req ->
  exists n text evs st',
    post_recommendations env req st =
    (Returned (Json 200 (ReportBody true n text)), st')
    /\ log st' = log st ++ evs
    /\ (1 <= n <= 100)%nat
    /\ n = Nat.min 100 (Frontend.negative (Frontend.compute_stats results))
    /\ (2 <= List.length (generations evs) <= 3)%nat.
Proof.
  intros Hkey. unfold Frontend.generateRecommendations. cbn zeta.
  destruct (List.length (Frontend.negativeReviews_of results) =? 0)%nat eqn:L;
    [discriminate|].
  intros H. inversion H; subst; clear H.
  apply Nat.eqb_neq in L.
  destruct (negativeReviews_of_negative_records results) as [_ Hlen].
  set (negs := Frontend.negativeReviews_of results) in *.
  assert (Hne : negs <> []) by (intros E; rewrite E in L; now apply L).
  rewrite (post_recommendations_forwards env negs (Some 100%Z) (Some 50%Z) st Hne).
  cbn zeta. cbn [default]. rewrite (slice_prefix 100 negs ltac:(lia)).
  change (Z.to_nat 100) with 100%nat.
  set (cut := firstn 100 negs). set (st1 := State _ _).
  pose proof (chunkArray_pieces 50 cut ltac:(lia)) as Hc.
  destruct (analyzeAndRecommend_spec env cut 50 _ st1 Hkey Hc)
    as (outs & final & evs & E & Lo & G & _).
  rewrite E. subst st1. cbn [log sentimentPipeline]. rewrite <- app_assoc.
  assert (Hcut : List.length cut = Nat.min 100 (List.length negs))
    by (unfold cut; now rewrite length_firstn).
  eexists _, _, _, _. split; [reflexivity|]. split; [reflexivity|].
  split; [lia|]. split; [lia|].
  rewrite generations_app. cbn [generations app]. rewrite G, length_app.
  rewrite length_combine, !length_map, Lo, length_map, length_seq, Nat.min_id.
  cbn [List.length].
  change (Z.to_nat 50) with 50%nat.
  assert (1 <= pieces 50 cut <= 2)%nat; [|lia].
  split.
  - apply (pieces_spec 50 cut 0); lia.
  - destruct (Nat.le_gt_cases (pieces 50 cut) 2) as [|Hgt]; [assumption|].
    apply (pieces_spec 50 cut 2) in Hgt; lia.
Qed.

Lemma frontend_request_is_answered_witness :
  exists n text evs st',
    post_recommendations counting_model
      (RecommendationsBody (Some ["boring"; "too fast"]%string)
         (Some 100%Z) (Some 50%Z)) initial =
    (Returned (Json 200 (ReportBody true n text)), st')
    /\ log st' = log initial ++ evs
    /\ (1 <= n <= 100)%nat
    /\ n = Nat.min 100
             (Frontend.negative (Frontend.compute_stats three_records))
    /\ (2 <= List.length (generations evs) <= 3)%nat.
Proof.
  apply (frontend_request_is_answered counting_model three_records
           (RecommendationsBody (Some ["boring"; "too fast"]%string)
              (Some 100%Z) (Some 50%Z)) initial).
  - reflexivity.
  - vm_compute. reflexivity.
Defined.

End FrontendFacts.
